(** * Bar series of lumibot: normalisation, queries and resampling

    A shallow embedding of [lumibot/entities/bars.py] (class [Bars], its
    constructor gate, [parse_bar_list], [split], [filter], [get_momentum],
    [aggregate_bars], the exception [NoBarDataFound]) and of the parts of
    [lumibot/data_sources/alpaca_data.py] that feed it ([format_datetime],
    [_parse_source_symbol_bars], [_parse_source_bars]).

    Conventions of the embedding.
    - A Python function that can raise returns [result A]: [inl e] is the
      raised exception, [inr a] the returned value.
    - Numbers held in a frame are exact rationals ([Qc]); a [cell] is a
      number or the missing value ([None], pandas' NaN).  A division whose
      divisor is zero yields the missing value: the non-finite results of
      binary64 division (NaN and the infinities) are all read as
      "undefined", and rounding is not modelled.  A price of a row is
      always a number.
    - What the arithmetic gives bit for bit is read off module [float64],
      which runs the column operations on binary64 numbers.  Where a
      theorem about the exact frame gives the value of a computation, it
      names the operations in the order in which the code applies them, and
      the values of its example are numbers on which exact and binary64
      arithmetic agree.
    - A time stamp is an instant, counted in nanoseconds since the epoch,
      as pandas stores it. *)

From Stdlib Require Import Ascii String QArith Qcanon Floats.
From stdpp Require Import base numbers option list strings sorting gmap.

(** A decimal float literal stands for the nearest binary64 number, as it
    does in Python. *)
#[local] Set Warnings "-inexact-float".

(** ** Exceptions and the error monad *)

Inductive exception : Type :=
  | NoBarDataFound (message : string)
  | TypeError (message : string)
  | KeyError (key : string)
  | IndexError (message : string).

Definition result (A : Type) : Type := (exception + A)%type.

Definition ret {A : Type} (a : A) : result A := inr a.

Definition raise {A : Type} (e : exception) : result A := inl e.

Definition bind {A B : Type} (c : result A) (k : A -> result B) : result B :=
  match c with
  | inl e => inl e
  | inr a => k a
  end.

Notation "x <- c ;; k" := (bind c (fun x => k))
  (at level 20, c at level 99, k at level 200, only parsing).

(** ** Text *)

(** [str.upper] on the ASCII range: the letters a-z are mapped to A-Z, every
    other byte is kept. *)
Definition upper_ascii (c : ascii) : ascii :=
  let n := N_of_ascii c in
  if ((97 <=? n) && (n <=? 122))%N then ascii_of_N (n - 32) else c.

Fixpoint upper (s : string) : string :=
  match s with
  | EmptyString => EmptyString
  | String c s' => String (upper_ascii c) (upper s')
  end.

(** ** Collaborators that are not part of the two source files *)

Module Asset.
(** Modelled from the spec: the asset identity object of
    [lumibot.entities] is not among the source files.  It exposes at least
    a [symbol] field; [str] is the text that formatting the object inside
    an f-string produces. *)
Record t : Type := mk { symbol : string; str : string }.
End Asset.

Module Bar.
(** Modelled from the spec: the class [Bar] imported from [.bar] is not
    among the source files.  A bar record holds the eight entries of the
    [item] dictionary that [Bars.split] hands to its constructor. *)
Record t : Type := mk {
  timestamp : Z;
  open : Qc;
  high : Qc;
  low : Qc;
  close : Qc;
  volume : Qc;
  dividend : Qc;
  stock_splits : Qc }.
End Bar.

(** ** The parts of pandas that the code uses *)

Abbreviation Timestamp := Z (only parsing).

Abbreviation cell := (option Qc).

Module pd.

(** The five price columns that every frame handed to [Bars] has (see the
    docstring of [Bars.__init__]); they hold numbers.  A frame in which a
    price is missing is not described by this record. *)
Record Row : Type := mkRow {
  open : Qc;
  high : Qc;
  low : Qc;
  close : Qc;
  volume : Qc }.

(** A frame: the index with the five price columns, kept row by row, and
    the optional columns, each present ([Some]) or absent ([None]). *)
Record DataFrame : Type := mkDataFrame {
  rows : list (Timestamp * Row);
  dividend : option (list Qc);
  stock_splits : option (list Qc);
  price_change : option (list cell);
  dividend_yield : option (list cell);
  return_ : option (list cell) }.

(** [df.shape[0]] *)
Definition shape0 (df : DataFrame) : nat := length (rows df).

(** [df.index] and [df["close"]], [df["volume"]]. *)
Definition index (df : DataFrame) : list Timestamp := fst <$> rows df.

Definition column (f : Row -> Qc) (df : DataFrame) : list Qc :=
  (fun r => f (snd r)) <$> rows df.

(** Arithmetic on cells: a missing operand gives a missing result, and so
    does a zero divisor (binary64 gives NaN for 0 / 0 and an infinity for
    another number over 0; both are read as undefined here). *)
Definition cell_div (x y : cell) : cell :=
  match x, y with
  | Some a, Some b => if decide (b = 0%Qc) then None else Some (a / b)%Qc
  | _, _ => None
  end.

Definition cell_add (x y : cell) : cell :=
  match x, y with
  | Some a, Some b => Some (a + b)%Qc
  | _, _ => None
  end.

Definition cell_sub (x y : cell) : cell :=
  match x, y with
  | Some a, Some b => Some (a - b)%Qc
  | _, _ => None
  end.

(** Element-wise [a / b] and [a + b] of two columns of one frame. *)
Definition series_div (a b : list cell) : list cell := zip_with cell_div a b.

Definition series_add (a b : list cell) : list cell := zip_with cell_add a b.

(** [Series.fillna(method="pad")]: a missing value takes the last value
    before it, if there is one. *)
Fixpoint pad_from (prev : cell) (l : list cell) : list cell :=
  match l with
  | [] => []
  | None :: l' => prev :: pad_from prev l'
  | Some x :: l' => Some x :: pad_from (Some x) l'
  end.

Definition pad (l : list cell) : list cell := pad_from None l.

(** [Series.shift(periods)]: every value moves [periods] rows down, the
    first [periods] rows become missing, the length is kept. *)
Definition shift (periods : nat) (l : list cell) : list cell :=
  take (length l) (replicate periods None ++ l).

(** [Series.pct_change(periods)] with pandas' defaults: the column is
    padded, divided by its shifted self, and 1 is subtracted. *)
Definition pct_change (periods : nat) (l : list cell) : list cell :=
  let data := pad l in
  (fun q => cell_sub q (Some 1%Qc)) <$> series_div data (shift periods data).

(** [series[-1]]: the last value; an empty series has none. *)
Definition iloc_last {A : Type} (l : list A) : result A :=
  match last l with
  | Some x => ret x
  | None => raise (IndexError "index -1 is out of bounds for axis 0 with size 0")
  end.

(** Boolean indexing [df[mask]]: the rows whose mask entry is true, in
    every column. *)
Fixpoint select {A : Type} (mask : list bool) (l : list A) : list A :=
  match mask, l with
  | true :: mask', x :: l' => x :: select mask' l'
  | false :: mask', _ :: l' => select mask' l'
  | _, _ => []
  end.

Definition getitem_mask (mask : list bool) (df : DataFrame) : DataFrame :=
  {| rows := select mask (rows df);
     dividend := select mask <$> dividend df;
     stock_splits := select mask <$> stock_splits df;
     price_change := select mask <$> price_change df;
     dividend_yield := select mask <$> dividend_yield df;
     return_ := select mask <$> return_ df |}.

(** Setting the optional columns, [df["price_change"] = ...] and the
    like. *)
Definition set_price_change (col : list cell) (df : DataFrame) : DataFrame :=
  {| rows := rows df; dividend := dividend df;
     stock_splits := stock_splits df; price_change := Some col;
     dividend_yield := dividend_yield df; return_ := return_ df |}.

Definition set_dividend (col : list Qc) (df : DataFrame) : DataFrame :=
  {| rows := rows df; dividend := Some col;
     stock_splits := stock_splits df; price_change := price_change df;
     dividend_yield := dividend_yield df; return_ := return_ df |}.

Definition set_dividend_yield (col : list cell) (df : DataFrame) : DataFrame :=
  {| rows := rows df; dividend := dividend df;
     stock_splits := stock_splits df; price_change := price_change df;
     dividend_yield := Some col; return_ := return_ df |}.

Definition set_return (col : list cell) (df : DataFrame) : DataFrame :=
  {| rows := rows df; dividend := dividend df;
     stock_splits := stock_splits df; price_change := price_change df;
     dividend_yield := dividend_yield df; return_ := Some col |}.

(** Reading an optional column, [df[name]]: an absent column is a
    [KeyError]. *)
Definition getitem {A : Type} (name : string) (col : option A) : result A :=
  match col with
  | Some c => ret c
  | None => raise (KeyError name)
  end.

(** [pd.DataFrame(raw).set_index("timestamp")] for a list of bar records:
    one row per record, in the order of the list, with the columns of the
    records.  With no record the frame has no column at all, and
    [set_index] raises [KeyError]. *)
Definition row_of_bar (b : Bar.t) : Timestamp * Row :=
  (Bar.timestamp b,
   {| open := Bar.open b; high := Bar.high b; low := Bar.low b;
      close := Bar.close b; volume := Bar.volume b |}).

Definition DataFrame_set_index (raw : list Bar.t) : result DataFrame :=
  match raw with
  | [] => raise (KeyError "timestamp")
  | _ :: _ =>
      ret {| rows := row_of_bar <$> raw;
             dividend := Some (Bar.dividend <$> raw);
             stock_splits := Some (Bar.stock_splits <$> raw);
             price_change := None; dividend_yield := None;
             return_ := None |}
  end.

(** *** Grouping by a time bucket

    [pd.Grouper(freq=frequency)] lays out buckets of one width, closed on
    the left and labelled by their left edge.  [width] is the width that
    pandas reads from the frequency string ("15Min", "1H"), in
    nanoseconds, and [origin] the instant the bucket edges are counted
    from (pandas takes the midnight that starts the day of the first
    row).  Bins that follow the calendar ("1D" across a change of the
    clock, weeks, months) do not have one width and are not described. *)
Record Grouper : Type := mkGrouper { width : positive; origin : Z }.

Definition bucket (g : Grouper) (t : Timestamp) : Z :=
  ((t - origin g) `div` Z.pos (width g))%Z.

Definition label (g : Grouper) (k : Z) : Timestamp :=
  (origin g + k * Z.pos (width g))%Z.

(** The grouper sorts a frame whose index is not increasing, with a stable
    sort.  [sort_index] is the insertion sort that keeps the order of rows
    with equal time stamps. *)
Fixpoint insert_row (x : Timestamp * Row) (l : list (Timestamp * Row))
  : list (Timestamp * Row) :=
  match l with
  | [] => [x]
  | y :: l' =>
      if bool_decide (fst x ≤ fst y)%Z then x :: y :: l'
      else y :: insert_row x l'
  end.

Definition sort_index (l : list (Timestamp * Row)) : list (Timestamp * Row) :=
  foldr insert_row [] l.

(** The bins run from the bucket of the earliest row to the bucket of the
    latest one, without a gap. *)
Definition bins (g : Grouper) (sorted : list (Timestamp * Row)) : list Z :=
  match head sorted, last sorted with
  | Some r0, Some r1 =>
      seqZ (bucket g (fst r0)) (bucket g (fst r1) - bucket g (fst r0) + 1)
  | _, _ => []
  end.

Definition group (g : Grouper) (k : Z) (sorted : list (Timestamp * Row))
  : list Row :=
  snd <$> filter (fun r => bucket g (fst r) = k) sorted.

(** The aggregations named in [agg]; over no value "first", "last", "min"
    and "max" give the missing value and "sum" gives 0.  [sum] is the exact
    sum: pandas adds binary64 numbers, where the order of the additions can
    show in the last bits of the result. *)
Definition Qcmin (x y : Qc) : Qc := if decide (x ≤ y)%Qc then x else y.

Definition Qcmax (x y : Qc) : Qc := if decide (x ≤ y)%Qc then y else x.

Definition agg_first (l : list Qc) : cell := head l.

Definition agg_last (l : list Qc) : cell := last l.

Definition agg_min (l : list Qc) : cell :=
  match l with
  | [] => None
  | x :: l' => Some (foldr Qcmin x l')
  end.

Definition agg_max (l : list Qc) : cell :=
  match l with
  | [] => None
  | x :: l' => Some (foldr Qcmax x l')
  end.

Definition sum (l : list Qc) : Qc := foldr Qcplus 0%Qc l.

Definition agg_sum (l : list Qc) : cell := Some (sum l).

(** A row of the aggregated frame, columns in the order of the dictionary
    given to [agg]: open, close, low, high, volume. *)
Record AggRow : Type := mkAggRow {
  agg_open : cell;
  agg_close : cell;
  agg_low : cell;
  agg_high : cell;
  agg_volume : cell }.

Definition agg_group (grp : list Row) : AggRow :=
  {| agg_open := agg_first (open <$> grp);
     agg_close := agg_last (close <$> grp);
     agg_low := agg_min (low <$> grp);
     agg_high := agg_max (high <$> grp);
     agg_volume := agg_sum (volume <$> grp) |}.

(** [df.groupby(pd.Grouper(freq=frequency)).agg({...})] *)
Definition groupby_agg (g : Grouper) (df : DataFrame)
  : list (Timestamp * AggRow) :=
  let sorted := sort_index (rows df) in
  (fun k => (label g k, agg_group (group g k sorted))) <$> bins g sorted.

(** [new_df.columns = ["open", "close", "low", "high", "volume"]] names
    the five columns in the order [agg] produced them, and [dropna] keeps
    the rows without a missing value. *)
Definition dropna_row (r : Timestamp * AggRow) : option (Timestamp * Row) :=
  o ← agg_open (snd r);
  c ← agg_close (snd r);
  l ← agg_low (snd r);
  h ← agg_high (snd r);
  v ← agg_volume (snd r);
  Some (fst r, {| open := o; high := h; low := l; close := c; volume := v |}).

Definition dropna (l : list (Timestamp * AggRow)) : DataFrame :=
  {| rows := omap dropna_row l;
     dividend := None; stock_splits := None; price_change := None;
     dividend_yield := None; return_ := None |}.

End pd.

(** ** [NoBarDataFound] *)

(** [NoBarDataFound.__init__(source, asset)]: the two arguments are formatted
    into one message, and the message is all that is handed to [Exception];
    the exception object keeps no other attribute.  The file defines the
    class twice with the same constructor. *)
Definition NoBarDataFound_message (source : string) (asset : Asset.t) : string :=
  (source ++ " did not return data for symbol " ++ Asset.str asset ++ ". "
   ++ "Make sure there is no symbol typo or use another data source")%string.

Definition NoBarDataFound_init (source : string) (asset : Asset.t) : exception :=
  NoBarDataFound (NoBarDataFound_message source asset).

(** ** [Bars] *)

Module Bars.

(** What [raw] can hold: the bar list given to [parse_bar_list], or the
    frame that the provider returned. *)
Inductive payload : Type :=
  | RawBarList (bar_list : list Bar.t)
  | RawFrame (response : pd.DataFrame).

Record t : Type := mk {
  df : pd.DataFrame;
  source : string;
  asset : Asset.t;
  symbol : string;
  _raw : option payload }.

(** [Bars.__init__(self, df, source, asset, raw=None)] *)
Definition __init__ (df : pd.DataFrame) (source : string) (asset : Asset.t)
    (raw : option payload) : result t :=
  if decide (pd.shape0 df = 0) then raise (NoBarDataFound_init source asset)
  else
    ret {| df := df;
           source := upper source;
           asset := asset;
           symbol := upper (Asset.symbol asset);
           _raw := raw |}.

(** Calling the class, [Bars(...)]: Python binds the arguments of the call
    to the parameters of [__init__] before the body runs.  [None] stands
    for a parameter that the call site leaves out; [source] and [asset]
    have no default, so leaving them out is a [TypeError]. *)
Definition call (df : pd.DataFrame) (source : option string)
    (asset : option Asset.t) (raw : option payload) : result t :=
  match source, asset with
  | Some source, Some asset => __init__ df source asset raw
  | None, Some _ =>
      raise (TypeError "__init__() missing 1 required positional argument: 'source'")
  | Some _, None =>
      raise (TypeError "__init__() missing 1 required positional argument: 'asset'")
  | None, None =>
      raise (TypeError "__init__() missing 2 required positional arguments: 'source' and 'asset'")
  end.

(** [Bars.parse_bar_list(cls, bar_list, source, asset)] *)
Definition parse_bar_list (bar_list : list Bar.t) (source : string)
    (asset : Asset.t) : result t :=
  let raw := bar_list in
  df <- pd.DataFrame_set_index raw ;;
  let df :=
    pd.set_price_change (pd.pct_change 1 (Some <$> pd.column pd.close df)) df in
  dividend <- pd.getitem "dividend" (pd.dividend df) ;;
  let df :=
    pd.set_dividend_yield
      (pd.series_div (Some <$> dividend) (Some <$> pd.column pd.close df)) df in
  dividend_yield <- pd.getitem "dividend_yield" (pd.dividend_yield df) ;;
  price_change <- pd.getitem "price_change" (pd.price_change df) ;;
  let df := pd.set_return (pd.series_add dividend_yield price_change) df in
  call df (Some source) (Some asset) (Some (RawBarList bar_list)).

(** [Bars.split(self)].  [index.timestamp()] is the instant in seconds and
    [int] cuts its fraction off, towards zero; [row.get(name, 0)] is the
    value of the row in column [name], and 0 when the frame has no such
    column. *)
Definition row_get (col : option (list Qc)) (i : nat) (value : Qc) : Qc :=
  match col with
  | Some c => default value (c !! i)
  | None => value
  end.

Definition split (self : t) : list Bar.t :=
  imap (fun i r =>
          {| Bar.timestamp := Z.quot (fst r) 1000000000;
             Bar.open := pd.open (snd r);
             Bar.high := pd.high (snd r);
             Bar.low := pd.low (snd r);
             Bar.close := pd.close (snd r);
             Bar.volume := pd.volume (snd r);
             Bar.dividend := row_get (pd.dividend (df self)) i 0%Qc;
             Bar.stock_splits := row_get (pd.stock_splits (df self)) i 0%Qc |})
       (pd.rows (df self)).

(** [Bars.get_last_price(self)] *)
Definition get_last_price (self : t) : result Qc :=
  pd.iloc_last (pd.column pd.close (df self)).

(** [Bars.get_last_dividend(self)]; the warning that is logged when the
    column is absent is not modelled. *)
Definition get_last_dividend (self : t) : result Qc :=
  match pd.dividend (df self) with
  | Some dividend => pd.iloc_last dividend
  | None => ret 0%Qc
  end.

(** [Bars.filter(self, start=None, end=None)]: a bound that is not given
    ([None]) is not a [datetime] and filters nothing. *)
Definition filter (self : t) (start end_ : option Timestamp) : pd.DataFrame :=
  let df_copy := df self in
  let df_copy :=
    match start with
    | Some start =>
        pd.getitem_mask
          ((fun t => bool_decide (start ≤ t)%Z) <$> pd.index df_copy) df_copy
    | None => df_copy
    end in
  let df_copy :=
    match end_ with
    | Some end_ =>
        pd.getitem_mask
          ((fun t => bool_decide (t ≤ end_)%Z) <$> pd.index df_copy) df_copy
    | None => df_copy
    end in
  df_copy.

(** [Bars.get_momentum(self, start=None, end=None)] *)
Definition get_momentum (self : t) (start end_ : option Timestamp)
  : result cell :=
  let df_copy := filter self start end_ in
  let n_rows := pd.shape0 df_copy in
  if decide (n_rows = 0) then ret (Some 0%Qc)
  else
    pd.iloc_last
      (pd.pct_change (n_rows - 1) (Some <$> pd.column pd.close df_copy)).

(** [Bars.get_total_volume(self, start=None, end=None)] *)
Definition get_total_volume (self : t) (start end_ : option Timestamp) : Qc :=
  let df_copy := filter self start end_ in
  let n_rows := pd.shape0 df_copy in
  if decide (n_rows = 0) then 0%Qc
  else pd.sum (pd.column pd.volume df_copy).

(** [Bars.aggregate_bars(self, frequency)] *)
Definition aggregate_bars (self : t) (frequency : pd.Grouper) : result t :=
  let new_df := pd.groupby_agg frequency (df self) in
  let new_df := pd.dropna new_df in
  new_bars <- call new_df (Some (source self)) (Some (asset self)) None ;;
  ret new_bars.

End Bars.

(** ** The column arithmetic on binary64

    The price columns of a frame are numpy [float64] columns.  [float] is
    the binary64 type of the kernel, with the IEEE 754 operations that
    numpy applies element by element: a result is rounded to the nearest
    binary64 number, and a division by zero gives an infinity or NaN.  The
    definitions of this module are those of [pd] and [Bars] above with
    [float] in the place of [cell], for the lines of the source that
    compute with the close column. *)

Module float64.

(** [Series.fillna(method="pad")], [Series.shift(periods)] and
    [Series.pct_change(periods)]; the missing value is NaN. *)
Fixpoint pad_from (prev : float) (l : list float) : list float :=
  match l with
  | [] => []
  | x :: l' =>
      if PrimFloat.is_nan x then prev :: pad_from prev l'
      else x :: pad_from x l'
  end.

Definition pad (l : list float) : list float := pad_from PrimFloat.nan l.

Definition shift (periods : nat) (l : list float) : list float :=
  take (length l) (replicate periods PrimFloat.nan ++ l).

Definition pct_change (periods : nat) (l : list float) : list float :=
  let data := pad l in
  (fun q => PrimFloat.sub q 1%float)
    <$> zip_with PrimFloat.div data (shift periods data).

(** [df["close"].pct_change()], the price_change column that
    [parse_bar_list] sets. *)
Definition price_change (close : list float) : list float :=
  pct_change 1 close.

(** [Bars.filter] and [Bars.get_momentum] on the index and the close
    column, the part of the frame that [get_momentum] reads.  The 0 that is
    returned for a window without rows is the integer 0 in Python, which
    equals the float 0. *)
Definition filter (df : list (Timestamp * float))
    (start end_ : option Timestamp) : list (Timestamp * float) :=
  let df_copy := df in
  let df_copy :=
    match start with
    | Some start =>
        pd.select ((fun r => bool_decide (start ≤ fst r)%Z) <$> df_copy) df_copy
    | None => df_copy
    end in
  let df_copy :=
    match end_ with
    | Some end_ =>
        pd.select ((fun r => bool_decide (fst r ≤ end_)%Z) <$> df_copy) df_copy
    | None => df_copy
    end in
  df_copy.

Definition get_momentum (df : list (Timestamp * float))
    (start end_ : option Timestamp) : result float :=
  let df_copy := filter df start end_ in
  let n_rows := length df_copy in
  if decide (n_rows = 0) then ret 0%float
  else pd.iloc_last (pct_change (n_rows - 1) (snd <$> df_copy)).

End float64.

(** ** [datetime] and its ISO-8601 text *)

Module datetime.

(** A [datetime.datetime], and a [pd.Timestamp] built from one (the latter
    is a subclass of the former and keeps its fields).  [tzinfo] is [None]
    for a naive value; for an aware one it holds the offset from UTC, in
    minutes, that [utcoffset()] returns. *)
Record t : Type := mk {
  year : Z;
  month : Z;
  day : Z;
  hour : Z;
  minute : Z;
  second : Z;
  microsecond : Z;
  tzinfo : option Z }.

(** The ranges that the constructor of [datetime] enforces (the length of
    the month apart), and [timedelta(hours=24)] as the bound of an
    offset. *)
Definition valid_offset (o : Z) : bool :=
  bool_decide (-1440 < o < 1440)%Z.

Definition valid (dt : t) : bool :=
  bool_decide (1 ≤ year dt ≤ 9999)%Z && bool_decide (1 ≤ month dt ≤ 12)%Z
  && bool_decide (1 ≤ day dt ≤ 31)%Z && bool_decide (0 ≤ hour dt ≤ 23)%Z
  && bool_decide (0 ≤ minute dt ≤ 59)%Z && bool_decide (0 ≤ second dt ≤ 59)%Z
  && bool_decide (0 ≤ microsecond dt ≤ 999999)%Z
  && match tzinfo dt with Some o => valid_offset o | None => true end.

(** [dt.replace(tzinfo=...)] *)
Definition replace_tzinfo (dt : t) (tz : option Z) : t :=
  {| year := year dt; month := month dt; day := day dt; hour := hour dt;
     minute := minute dt; second := second dt;
     microsecond := microsecond dt; tzinfo := tz |}.

(** Decimal digits, padded with zeros to a fixed width. *)
Definition digit (n : Z) : ascii := ascii_of_N (48 + Z.to_N (n `mod` 10)).

Definition pad2 (n : Z) : string :=
  String (digit (n `div` 10)) (String (digit n) EmptyString).

Definition pad4 (n : Z) : string := (pad2 (n `div` 100) ++ pad2 n)%string.

Definition pad6 (n : Z) : string := (pad4 (n `div` 100) ++ pad2 n)%string.

(** [isoformat()]: [YYYY-MM-DDTHH:MM:SS], then [.ffffff] when the
    microsecond is not 0, then [+HH:MM] or [-HH:MM] for an aware value. *)
Definition isoformat_offset (tz : option Z) : string :=
  match tz with
  | None => EmptyString
  | Some o =>
      ((if bool_decide (o < 0)%Z then "-" else "+")
       ++ pad2 (Z.abs o `div` 60) ++ ":" ++ pad2 (Z.abs o `mod` 60))%string
  end.

Definition isoformat (dt : t) : string :=
  (pad4 (year dt) ++ "-" ++ pad2 (month dt) ++ "-" ++ pad2 (day dt) ++ "T"
   ++ pad2 (hour dt) ++ ":" ++ pad2 (minute dt) ++ ":" ++ pad2 (second dt)
   ++ (if bool_decide (microsecond dt = 0)%Z then EmptyString
       else "." ++ pad6 (microsecond dt))
   ++ isoformat_offset (tzinfo dt))%string.

(** [datetime.fromisoformat], the reader of that format. *)
Definition digit_val (c : ascii) : option Z :=
  let n := N_of_ascii c in
  if ((48 <=? n) && (n <=? 57))%N then Some (Z.of_N n - 48)%Z else None.

Fixpoint read_digits (n : nat) (acc : Z) (s : string) : option (Z * string) :=
  match n with
  | O => Some (acc, s)
  | S n' =>
      match s with
      | String c s' =>
          d ← digit_val c; read_digits n' (10 * acc + d)%Z s'
      | EmptyString => None
      end
  end.

Definition expect (c : ascii) (s : string) : option string :=
  match s with
  | String c' s' => if decide (c = c') then Some s' else None
  | EmptyString => None
  end.

Definition read_hhmm (s : string) : option Z :=
  '(hh, s) ← read_digits 2 0 s;
  s ← expect ":" s;
  '(mm, s) ← read_digits 2 0 s;
  match s with
  | EmptyString => Some (hh * 60 + mm)%Z
  | String _ _ => None
  end.

Definition read_offset (s : string) : option (option Z) :=
  match s with
  | EmptyString => Some None
  | String c s' =>
      if decide (c = "+"%char) then o ← read_hhmm s'; Some (Some o)
      else if decide (c = "-"%char) then o ← read_hhmm s'; Some (Some (- o)%Z)
      else None
  end.

Definition read_fraction (s : string) : option (Z * string) :=
  match s with
  | String c s' =>
      if decide (c = "."%char) then read_digits 6 0 s' else Some (0%Z, s)
  | EmptyString => Some (0%Z, s)
  end.

Definition fromisoformat (s : string) : option t :=
  '(y, s) ← read_digits 4 0 s;
  s ← expect "-" s;
  '(mo, s) ← read_digits 2 0 s;
  s ← expect "-" s;
  '(d, s) ← read_digits 2 0 s;
  s ← expect "T" s;
  '(h, s) ← read_digits 2 0 s;
  s ← expect ":" s;
  '(mi, s) ← read_digits 2 0 s;
  s ← expect ":" s;
  '(sec, s) ← read_digits 2 0 s;
  '(us, s) ← read_fraction s;
  tz ← read_offset s;
  Some {| year := y; month := mo; day := d; hour := h; minute := mi;
          second := sec; microsecond := us; tzinfo := tz |}.

End datetime.

(** ** [AlpacaData] *)

Module AlpacaData.

Definition NY_TIMEZONE : string := "America/New_York".

Definition MIN_TIMESTEP : string := "minute".

(** The keyword arguments that [_pull_source_bars] hands to
    [api.get_barset]. *)
Record kwargs : Type := mk_kwargs { limit : Z; end_ : option string }.

(** The configuration object handed to the constructor: [API_KEY] and
    [API_SECRET] are read without a check, [ENDPOINT] and [VERSION] only
    when [hasattr] finds them. *)
Record Config : Type := mkConfig {
  API_KEY : string;
  API_SECRET : string;
  ENDPOINT : option string;
  VERSION : option string }.

(** The arguments with which the client [tradeapi.REST] is built. *)
Record REST : Type := mkREST {
  rest_key : string;
  rest_secret : string;
  rest_endpoint : string;
  rest_version : string }.

Record t : Type := mk {
  name : string;
  max_workers : Z;
  chunk_size : Z;
  config : Config;
  api_key : string;
  api_secret : string;
  endpoint : string;
  version : string;
  api : REST }.

(** [AlpacaData.__init__(self, config, max_workers=20, chunk_size=100)];
    [None] stands for an argument that the caller leaves to its default. *)
Definition __init__ (config : Config) (max_workers chunk_size : option Z) : t :=
  let max_workers := default 20%Z max_workers in
  let chunk_size := default 100%Z chunk_size in
  let api_key := API_KEY config in
  let api_secret := API_SECRET config in
  let endpoint :=
    match ENDPOINT config with
    | Some e => e
    | None => "https://paper-api.alpaca.markets"
    end in
  let version :=
    match VERSION config with
    | Some v => v
    | None => "v2"
    end in
  {| name := "alpaca";
     max_workers := Z.min max_workers 200;
     chunk_size := Z.min chunk_size 100;
     config := config;
     api_key := api_key;
     api_secret := api_secret;
     endpoint := endpoint;
     version := version;
     api := {| rest_key := api_key; rest_secret := api_secret;
               rest_endpoint := endpoint; rest_version := version |} |}.

Section Fetcher.

(** The time zone database: the offset from UTC, in minutes, that the
    zone of the given name has at a wall-clock time.  (For a wall-clock
    time that the zone skips or repeats pandas raises instead of choosing
    an offset, and nothing is handed to the provider; that case is left
    out.) *)
Variable tz_utcoffset : string -> datetime.t -> Z.

(** [pd.Timestamp(dt)] keeps the fields and the zone of [dt], and
    [pd.Timestamp(dt, tz=name)] gives a naive [dt] the zone [name]
    without moving its wall-clock fields. *)
Definition Timestamp (dt : datetime.t) (tz : option string) : datetime.t :=
  match tz with
  | None => dt
  | Some name => datetime.replace_tzinfo dt (Some (tz_utcoffset name dt))
  end.

(** [AlpacaData.format_datetime(self, dt)] *)
Definition format_datetime (dt : datetime.t) : string :=
  match datetime.tzinfo dt with
  | Some _ => datetime.isoformat (Timestamp dt None)
  | None => datetime.isoformat (Timestamp dt (Some NY_TIMEZONE))
  end.

(** [AlpacaData._parse_source_symbol_bars(self, response)] *)
Definition _parse_source_symbol_bars (response : pd.DataFrame)
  : result Bars.t :=
  let df := response in
  let df :=
    pd.set_price_change (pd.pct_change 1 (Some <$> pd.column pd.close df)) df in
  let df := pd.set_dividend (replicate (pd.shape0 df) 0%Qc) df in
  dividend <- pd.getitem "dividend" (pd.dividend df) ;;
  let df :=
    pd.set_dividend_yield
      (pd.series_div (Some <$> dividend) (Some <$> pd.column pd.close df)) df in
  dividend_yield <- pd.getitem "dividend_yield" (pd.dividend_yield df) ;;
  price_change <- pd.getitem "price_change" (pd.price_change df) ;;
  let df := pd.set_return (pd.series_add dividend_yield price_change) df in
  bars <- Bars.call df None None (Some (Bars.RawFrame response)) ;;
  ret bars.

(** [AlpacaData._parse_source_bars(self, response)]: the loop over
    [response.items()], each value being an object with the frame as
    its [df]. *)
Fixpoint _parse_source_bars_loop (items : list (string * pd.DataFrame))
    (result_ : gmap string Bars.t) : result (gmap string Bars.t) :=
  match items with
  | [] => ret result_
  | (symbol, bars_df) :: items' =>
      bars <- _parse_source_symbol_bars bars_df ;;
      _parse_source_bars_loop items' (<[symbol := bars]> result_)
  end.

Definition _parse_source_bars (response : list (string * pd.DataFrame))
  : result (gmap string Bars.t) :=
  _parse_source_bars_loop response ∅.

(** What the method takes from outside the two files: the clock
    ([datetime.now()]), the subtraction of a [timedelta] (counted in
    microseconds) from a [datetime], the provider client
    ([self.api.get_barset]) and [_parse_source_timestep] of the base
    class [DataSource]. *)
Context {Response : Type}.
Variable now : datetime.t.
Variable datetime_sub : datetime.t -> Z -> datetime.t.
Variable get_barset : list string -> string -> kwargs -> result Response.
Variable _parse_source_timestep : string -> bool -> result string.

(** [AlpacaData._pull_source_bars(self, symbols, length, timestep,
    timeshift)]; [if timeshift:] holds for a [timedelta] other than
    zero. *)
Definition _pull_source_bars (symbols : list string) (length : Z)
    (timestep : string) (timeshift : option Z) : result Response :=
  parsed_timestep <- _parse_source_timestep timestep true ;;
  let kw := {| limit := length; end_ := None |} in
  let kw :=
    match timeshift with
    | Some delta =>
        if decide (delta = 0%Z) then kw
        else
          let end_dt := datetime_sub now delta in
          {| limit := limit kw; end_ := Some (format_datetime end_dt) |}
    | None => kw
    end in
  response <- get_barset symbols parsed_timestep kw ;;
  ret response.

(** [response.df[symbol]]: the frame of one symbol in the answer of the
    provider, which can fail when the answer has no such symbol. *)
Variable response_df_getitem : Response -> string -> result pd.DataFrame.

(** [AlpacaData._pull_source_symbol_bars(self, symbol, length, timestep,
    timeshift)] *)
Definition _pull_source_symbol_bars (symbol : string) (length : Z)
    (timestep : string) (timeshift : option Z) : result pd.DataFrame :=
  response <- _pull_source_bars [symbol] length timestep timeshift ;;
  response_df_getitem response symbol.

End Fetcher.

End AlpacaData.

(** ** How a series comes to exist, and the inputs of the examples *)

(** The two ways in which the code completes the construction of a series:
    from a list of bar records, and by aggregating an existing series. *)
Inductive origin : Type := FromBarList | FromAggregate.

Inductive live : origin -> Bars.t -> Prop :=
  | live_parse_bar_list bar_list source asset bars :
      Bars.parse_bar_list bar_list source asset = inr bars ->
      live FromBarList bars
  | live_aggregate_bars self frequency new_bars :
      Bars.aggregate_bars self frequency = inr new_bars ->
      live FromAggregate new_bars.

(** The derived columns that a frame can carry. *)
Definition derived_present (df : pd.DataFrame) : Prop :=
  is_Some (pd.price_change df) /\ is_Some (pd.dividend df)
  /\ is_Some (pd.dividend_yield df) /\ is_Some (pd.return_ df).

Definition derived_absent (df : pd.DataFrame) : Prop :=
  pd.price_change df = None /\ pd.dividend df = None
  /\ pd.dividend_yield df = None /\ pd.return_ df = None.

Definition AAPL : Asset.t := {| Asset.symbol := "aapl"; Asset.str := "AAPL" |}.

Definition minute_ns : Z := 60000000000.

(** A bar whose four prices are [price]. *)
Definition flat_bar (t price vol : Z) : Bar.t :=
  {| Bar.timestamp := t;
     Bar.open := Qc_of_Z price; Bar.high := Qc_of_Z price;
     Bar.low := Qc_of_Z price; Bar.close := Qc_of_Z price;
     Bar.volume := Qc_of_Z vol;
     Bar.dividend := 0%Qc; Bar.stock_splits := 0%Qc |}.

(** Three consecutive minute bars with closes 100, 101, 99 and volumes 10,
    20, 30. *)
Definition three_bars : list Bar.t :=
  [flat_bar minute_ns 100 10; flat_bar (2 * minute_ns) 101 20;
   flat_bar (3 * minute_ns) 99 30].

(** The frame with one row per bar and the five price columns only. *)
Definition frame_of (bar_list : list Bar.t) : pd.DataFrame :=
  {| pd.rows := pd.row_of_bar <$> bar_list;
     pd.dividend := None; pd.stock_splits := None; pd.price_change := None;
     pd.dividend_yield := None; pd.return_ := None |}.

(** The series that the constructor returns for that frame, the source
    "alpaca" and the asset [AAPL] (lemma [init_frame_of]). *)
Definition series_of (bar_list : list Bar.t) : Bars.t :=
  {| Bars.df := frame_of bar_list; Bars.source := "ALPACA"; Bars.asset := AAPL;
     Bars.symbol := "AAPL"; Bars._raw := None |}.

Definition empty_frame : pd.DataFrame := frame_of [].

(** Two requests with different sources and assets whose messages are the
    same text. *)
Definition source_1 : string := "alpaca".

Definition asset_1 : Asset.t :=
  {| Asset.symbol := "X"; Asset.str := "X did not return data for symbol Y" |}.

Definition source_2 : string := "alpaca did not return data for symbol X".

Definition asset_2 : Asset.t := {| Asset.symbol := "Y"; Asset.str := "Y" |}.

(** Three one-minute bars with closes 64, 96, 48 and dividends 16, 24, 0.
    Every quotient, difference and sum that the code forms of them is a
    multiple of 1/4: exact arithmetic and binary64 give the same numbers. *)
Definition dividend_bar (t price vol div : Z) : Bar.t :=
  {| Bar.timestamp := t;
     Bar.open := Qc_of_Z price; Bar.high := Qc_of_Z price;
     Bar.low := Qc_of_Z price; Bar.close := Qc_of_Z price;
     Bar.volume := Qc_of_Z vol;
     Bar.dividend := Qc_of_Z div; Bar.stock_splits := 0%Qc |}.

Definition dividend_bars : list Bar.t :=
  [dividend_bar minute_ns 64 10 16; dividend_bar (2 * minute_ns) 96 20 24;
   dividend_bar (3 * minute_ns) 48 30 0].

(** The index and the float64 close column of [dividend_bars] and of
    [three_bars]. *)
Definition dividend_closes : list (Z * float) :=
  [(minute_ns, 64%float); ((2 * minute_ns)%Z, 96%float);
   ((3 * minute_ns)%Z, 48%float)].

Definition three_closes : list (Z * float) :=
  [(minute_ns, 100%float); ((2 * minute_ns)%Z, 101%float);
   ((3 * minute_ns)%Z, 99%float)].

(** Two float64 closes of which the first is 0. *)
Definition zero_first_closes : list (Z * float) :=
  [(minute_ns, 0%float); ((2 * minute_ns)%Z, 5%float)].

(** ** The window of a query, in the words of the specification *)

(** The rows whose time stamp lies between the bounds, both inclusive, a
    bound that is not given leaving that side open. *)
Definition in_window (start end_ : option Z) (t : Z) : bool :=
  match start with Some s => bool_decide (s ≤ t)%Z | None => true end
  && match end_ with Some e => bool_decide (t ≤ e)%Z | None => true end.

Definition window (start end_ : option Z) (l : list (Z * pd.Row))
  : list (Z * pd.Row) :=
  filter (fun r => Is_true (in_window start end_ (fst r))) l.

(** The fractional change from the close of the first row of a window to
    the close of its last row; 0 for a window without rows. *)
Definition momentum_of (w : list (Z * pd.Row)) : cell :=
  match head w, last w with
  | Some r0, Some r1 =>
      pd.cell_div (Some (pd.close (snd r1) - pd.close (snd r0))%Qc)
                  (Some (pd.close (snd r0)))
  | _, _ => Some 0%Qc
  end.

(** The order of two rows in time. *)
Definition by_time (x y : Z * pd.Row) : Prop := (fst x ≤ fst y)%Z.

(** Four one-minute bars with opens and closes (100, 101), (101, 102),
    (102, 100), (100, 103), and one bucket of four minutes that holds
    them. *)
Definition bar_of (t o h l c v : Z) : Bar.t :=
  {| Bar.timestamp := t;
     Bar.open := Qc_of_Z o; Bar.high := Qc_of_Z h; Bar.low := Qc_of_Z l;
     Bar.close := Qc_of_Z c; Bar.volume := Qc_of_Z v;
     Bar.dividend := 0%Qc; Bar.stock_splits := 0%Qc |}.

Definition four_bars : list Bar.t :=
  [bar_of (4 * minute_ns) 100 101 100 101 10;
   bar_of (5 * minute_ns) 101 102 101 102 20;
   bar_of (6 * minute_ns) 102 102 100 100 30;
   bar_of (7 * minute_ns) 100 103 100 103 40].

Definition four_minutes : pd.Grouper :=
  {| pd.width := 240000000000; pd.origin := 0 |}.

(** ** Well-formed frames and rows *)

(** Every optional column that a frame has is as long as its index. *)
Definition column_aligned {A : Type} (n : nat) (col : option (list A)) : Prop :=
  forall c, col = Some c -> length c = n.

Definition aligned (df : pd.DataFrame) : Prop :=
  column_aligned (pd.shape0 df) (pd.dividend df)
  /\ column_aligned (pd.shape0 df) (pd.stock_splits df)
  /\ column_aligned (pd.shape0 df) (pd.price_change df)
  /\ column_aligned (pd.shape0 df) (pd.dividend_yield df)
  /\ column_aligned (pd.shape0 df) (pd.return_ df).

(** The low of a row is its least price and the high its greatest. *)
Definition ohlc_ordered (r : pd.Row) : Prop :=
  (pd.low r ≤ pd.open r)%Qc /\ (pd.open r ≤ pd.high r)%Qc
  /\ (pd.low r ≤ pd.close r)%Qc /\ (pd.close r ≤ pd.high r)%Qc.

(** A bar record with its time stamp cut to whole seconds, as [split]
    writes it. *)
Definition in_seconds (b : Bar.t) : Bar.t :=
  {| Bar.timestamp := Z.quot (Bar.timestamp b) 1000000000;
     Bar.open := Bar.open b; Bar.high := Bar.high b; Bar.low := Bar.low b;
     Bar.close := Bar.close b; Bar.volume := Bar.volume b;
     Bar.dividend := Bar.dividend b; Bar.stock_splits := Bar.stock_splits b |}.

(** The series that [parse_bar_list] returns for the three bars. *)
Definition parsed_three_bars : Bars.t :=
  match Bars.parse_bar_list three_bars "alpaca" AAPL with
  | inr bars => bars
  | inl _ => series_of three_bars
  end.

(** A float64 column without NaN. *)
Definition no_nan (l : list float) : Prop :=
  Forall (fun x => PrimFloat.is_nan x = false) l.

(** * Properties *)

(** Equality of two closed rationals, and of closed values that hold some:
    the numerators and denominators are compared. *)
Ltac qc_refl :=
  vm_compute;
  repeat first
    [ reflexivity
    | apply Qc_is_canon; reflexivity
    | f_equal ].

(** ** The constructor gate *)

Lemma init_empty df source asset raw :
  pd.shape0 df = 0 ->
  Bars.__init__ df source asset raw = inl (NoBarDataFound_init source asset).
Proof. intros H. unfold Bars.__init__. by rewrite decide_True. Qed.

Lemma init_nonempty df source asset raw :
  pd.shape0 df ≠ 0 ->
  Bars.__init__ df source asset raw =
  inr {| Bars.df := df; Bars.source := upper source; Bars.asset := asset;
         Bars.symbol := upper (Asset.symbol asset); Bars._raw := raw |}.
Proof. intros H. unfold Bars.__init__. by rewrite decide_False. Qed.

Lemma init_inr df source asset raw bars :
  Bars.__init__ df source asset raw = inr bars ->
  pd.shape0 df ≠ 0 /\ Bars.df bars = df /\ Bars.source bars = upper source
  /\ Bars.asset bars = asset /\ Bars.symbol bars = upper (Asset.symbol asset)
  /\ Bars._raw bars = raw.
Proof.
  unfold Bars.__init__. case_decide as Hn; [discriminate |].
  intros [= <-]. done.
Qed.

Lemma init_frame_of bar_list :
  bar_list ≠ [] ->
  Bars.__init__ (frame_of bar_list) "alpaca" AAPL None
  = inr (series_of bar_list).
Proof.
  intros Hne. rewrite init_nonempty; [done |].
  unfold pd.shape0. cbn [frame_of pd.rows]. rewrite length_fmap.
  by destruct bar_list.
Qed.

(** C1, as amended.  Constructing a series from a frame with zero rows
    always raises [NoBarDataFound] and never yields a series; the exception
    carries one text, the message into which the source and the text of the
    asset are formatted. *)
Theorem C1_empty_frame_raises df source asset raw :
  pd.shape0 df = 0 ->
  Bars.__init__ df source asset raw =
    inl (NoBarDataFound
           (source ++ " did not return data for symbol " ++ Asset.str asset
            ++ ". Make sure there is no symbol typo or use another data source"))
  /\ (forall bars, Bars.__init__ df source asset raw ≠ inr bars)
  /\ Bars.call df (Some source) (Some asset) raw
     = Bars.__init__ df source asset raw.
Proof.
  intros H. rewrite (init_empty _ _ _ _ H). split; [| split].
  - unfold NoBarDataFound_init, NoBarDataFound_message. do 2 f_equal.
  - intros bars. discriminate.
  - simpl. by rewrite (init_empty _ _ _ _ H).
Qed.

Lemma C1_empty_frame_raises_witness :
  pd.shape0 empty_frame = 0
  /\ Bars.__init__ empty_frame "alpaca" AAPL None
     = inl (NoBarDataFound
              "alpaca did not return data for symbol AAPL. Make sure there is no symbol typo or use another data source").
Proof.
  split; [reflexivity |].
  apply (C1_empty_frame_raises empty_frame "alpaca" AAPL None). reflexivity.
Defined.

(** C1 as it is stated fails: the exception does not carry the source and
    the asset as data that can be read back.  Two requests that differ in
    both raise the same exception, so no function of the exception returns
    them. *)
Lemma C1_counterexample :
  ~ (exists get : exception -> string * Asset.t,
       forall df source asset raw,
         pd.shape0 df = 0 ->
         exists e, Bars.__init__ df source asset raw = inl e
                   /\ get e = (source, asset)).
Proof.
  intros [get Hget].
  destruct (Hget empty_frame source_1 asset_1 None eq_refl) as (e1 & He1 & Hg1).
  destruct (Hget empty_frame source_2 asset_2 None eq_refl) as (e2 & He2 & Hg2).
  vm_compute in He1, He2. rewrite He1 in He2.
  injection He2 as <-. rewrite Hg1 in Hg2. discriminate Hg2.
Qed.

(** ** Columns: padding, shifting and the fractional change *)

Lemma pad_from_Some prev (l : list Qc) :
  pd.pad_from prev (Some <$> l) = Some <$> l.
Proof.
  revert prev. induction l as [| x l IH]; intros prev; simpl; [done |].
  by rewrite IH.
Qed.

Lemma pad_Some (l : list Qc) : pd.pad (Some <$> l) = Some <$> l.
Proof. apply pad_from_Some. Qed.

Lemma length_shift n (l : list cell) : length (pd.shift n l) = length l.
Proof.
  unfold pd.shift. rewrite length_take, length_app, length_replicate. lia.
Qed.

Lemma lookup_shift_lt n (l : list cell) i :
  i < n -> i < length l -> pd.shift n l !! i = Some None.
Proof.
  intros Hn Hl. unfold pd.shift.
  rewrite lookup_take_lt by done.
  rewrite lookup_app_l by (rewrite length_replicate; lia).
  by apply lookup_replicate_2.
Qed.

Lemma lookup_shift_ge n (l : list cell) i :
  n ≤ i -> i < length l -> pd.shift n l !! i = l !! (i - n).
Proof.
  intros Hn Hl. unfold pd.shift.
  rewrite lookup_take_lt by done.
  rewrite lookup_app_r by (rewrite length_replicate; lia).
  by rewrite length_replicate.
Qed.

Lemma length_pct_change n (l : list cell) :
  length (pd.pct_change n l) = length l.
Proof.
  unfold pd.pct_change, pd.series_div.
  rewrite length_fmap, length_zip_with, length_shift.
  assert (length (pd.pad l) = length l) as ->; [| lia].
  unfold pd.pad. generalize (@None Qc).
  induction l as [| [x |] l IH]; intros prev; simpl; auto.
Qed.

(** Row [i] of [pct_change(periods)] over a column of numbers. *)
Lemma lookup_pct_change_lt n (l : list Qc) i :
  i < n -> i < length l ->
  pd.pct_change n (Some <$> l) !! i = Some None.
Proof.
  intros Hn Hl. unfold pd.pct_change, pd.series_div.
  rewrite pad_Some, list_lookup_fmap, lookup_zip_with.
  rewrite lookup_shift_lt by (rewrite ?length_fmap; done).
  rewrite list_lookup_fmap.
  destruct (lookup_lt_is_Some_2 l i Hl) as [x ->]. done.
Qed.

Lemma lookup_pct_change_ge n (l : list Qc) i prev cur :
  n ≤ i -> l !! (i - n) = Some prev -> l !! i = Some cur ->
  pd.pct_change n (Some <$> l) !! i
  = Some (pd.cell_sub (pd.cell_div (Some cur) (Some prev)) (Some 1%Qc)).
Proof.
  intros Hn Hprev Hcur. unfold pd.pct_change, pd.series_div.
  rewrite pad_Some, list_lookup_fmap, lookup_zip_with.
  rewrite lookup_shift_ge
    by (rewrite ?length_fmap; eauto using lookup_lt_Some).
  rewrite !list_lookup_fmap, Hprev, Hcur. done.
Qed.

(** In exact arithmetic, dividing and then subtracting 1 is the change over
    the earlier value. *)
Lemma cell_pct (prev cur : Qc) :
  pd.cell_sub (pd.cell_div (Some cur) (Some prev)) (Some 1%Qc)
  = pd.cell_div (Some (cur - prev)%Qc) (Some prev).
Proof.
  unfold pd.cell_div, pd.cell_sub. case_decide as H0; [done |].
  f_equal. field. done.
Qed.

Lemma cell_pct_same (x : Qc) :
  x ≠ 0%Qc ->
  pd.cell_sub (pd.cell_div (Some x) (Some x)) (Some 1%Qc) = Some 0%Qc.
Proof.
  intros Hx. unfold pd.cell_div, pd.cell_sub. rewrite decide_False by done.
  f_equal. field. done.
Qed.

(** *** The same columns on binary64 *)

(** A NaN operand gives NaN. *)
Lemma div_nan (x : float) : PrimFloat.div x PrimFloat.nan = PrimFloat.nan.
Proof.
  apply Prim2SF_inj. rewrite div_spec.
  change (Prim2SF PrimFloat.nan) with S754_nan.
  unfold SF64div, SFdiv. by destruct (Prim2SF x).
Qed.

Lemma nan_sub (y : float) : PrimFloat.sub PrimFloat.nan y = PrimFloat.nan.
Proof.
  apply Prim2SF_inj. rewrite sub_spec.
  change (Prim2SF PrimFloat.nan) with S754_nan. reflexivity.
Qed.

(** A column without NaN is left as it is by the padding. *)
Lemma float64_pad_from prev l : no_nan l -> float64.pad_from prev l = l.
Proof.
  intros H. revert prev. induction H as [| x l Hx _ IH]; intros prev; [done |].
  cbn [float64.pad_from]. by rewrite Hx, IH.
Qed.

Lemma float64_length_shift n l : length (float64.shift n l) = length l.
Proof.
  unfold float64.shift. rewrite length_take, length_app, length_replicate. lia.
Qed.

Lemma float64_lookup_shift_lt n l i :
  i < n -> i < length l -> float64.shift n l !! i = Some PrimFloat.nan.
Proof.
  intros Hn Hl. unfold float64.shift.
  rewrite lookup_take_lt by done.
  rewrite lookup_app_l by (rewrite length_replicate; lia).
  by apply lookup_replicate_2.
Qed.

Lemma float64_lookup_shift_ge n l i :
  n ≤ i -> i < length l -> float64.shift n l !! i = l !! (i - n).
Proof.
  intros Hn Hl. unfold float64.shift.
  rewrite lookup_take_lt by done.
  rewrite lookup_app_r by (rewrite length_replicate; lia).
  by rewrite length_replicate.
Qed.

Lemma float64_length_pct_change n l :
  no_nan l -> length (float64.pct_change n l) = length l.
Proof.
  intros H. unfold float64.pct_change, float64.pad.
  rewrite float64_pad_from by done.
  rewrite length_fmap, length_zip_with, float64_length_shift. lia.
Qed.

Lemma float64_lookup_pct_change_lt n l i :
  no_nan l -> i < n -> i < length l ->
  float64.pct_change n l !! i = Some PrimFloat.nan.
Proof.
  intros H Hn Hl. unfold float64.pct_change, float64.pad.
  rewrite float64_pad_from by done.
  rewrite list_lookup_fmap, lookup_zip_with.
  rewrite float64_lookup_shift_lt by done.
  destruct (lookup_lt_is_Some_2 l i Hl) as [x ->]. cbn.
  by rewrite div_nan, nan_sub.
Qed.

Lemma float64_lookup_pct_change_ge n l i prev cur :
  no_nan l -> n ≤ i -> l !! (i - n) = Some prev -> l !! i = Some cur ->
  float64.pct_change n l !! i
  = Some (PrimFloat.sub (PrimFloat.div cur prev) 1%float).
Proof.
  intros H Hn Hprev Hcur. unfold float64.pct_change, float64.pad.
  rewrite float64_pad_from by done.
  rewrite list_lookup_fmap, lookup_zip_with.
  rewrite float64_lookup_shift_ge by eauto using lookup_lt_Some.
  by rewrite Hprev, Hcur.
Qed.

(** [get_momentum] on a window with rows and without NaN: the last close
    over the first, minus 1. *)
Lemma float64_get_momentum_ends df start end_ r0 r1 :
  head (float64.filter df start end_) = Some r0 ->
  last (float64.filter df start end_) = Some r1 ->
  no_nan (snd <$> float64.filter df start end_) ->
  float64.get_momentum df start end_
  = ret (PrimFloat.sub (PrimFloat.div (snd r1) (snd r0)) 1%float).
Proof.
  intros Hh Hl Hnan. unfold float64.get_momentum.
  set (w := float64.filter df start end_) in *.
  rewrite decide_False by (by destruct w).
  unfold pd.iloc_last.
  rewrite last_lookup, float64_length_pct_change, length_fmap by done.
  rewrite head_lookup in Hh. rewrite last_lookup in Hl.
  replace (pred (length w)) with (length w - 1) in * by lia.
  rewrite (float64_lookup_pct_change_ge _ _ _ (snd r0) (snd r1));
    [done | done | lia | |].
  - replace (length w - 1 - (length w - 1)) with 0 by lia.
    by rewrite list_lookup_fmap, Hh.
  - by rewrite list_lookup_fmap, Hl.
Qed.

(** *** Division by zero and by itself on binary64 *)

Lemma Prim2SF_zero : Prim2SF 0%float = S754_zero false.
Proof. reflexivity. Qed.

Lemma Prim2SF_one : Prim2SF 1%float = S754_finite false 4503599627370496 (-52).
Proof. reflexivity. Qed.

(** A positive number over 0 is the positive infinity and a negative one the
    negative infinity, and they stay so when 1 is subtracted. *)
Lemma div_zero_pos (x : float) :
  PrimFloat.ltb 0 x = true ->
  PrimFloat.sub (PrimFloat.div x 0) 1 = PrimFloat.infinity.
Proof.
  intros H. rewrite FloatAxioms.ltb_spec, Prim2SF_zero in H.
  apply Prim2SF_inj. rewrite sub_spec, div_spec, Prim2SF_zero, Prim2SF_one.
  change (Prim2SF PrimFloat.infinity) with (S754_infinity false).
  destruct (Prim2SF x) as [s | s | | s m e]; try discriminate H;
    destruct s; try discriminate H; reflexivity.
Qed.

Lemma div_zero_neg (x : float) :
  PrimFloat.ltb x 0 = true ->
  PrimFloat.sub (PrimFloat.div x 0) 1 = PrimFloat.neg_infinity.
Proof.
  intros H. rewrite FloatAxioms.ltb_spec, Prim2SF_zero in H.
  apply Prim2SF_inj. rewrite sub_spec, div_spec, Prim2SF_zero, Prim2SF_one.
  change (Prim2SF PrimFloat.neg_infinity) with (S754_infinity true).
  destruct (Prim2SF x) as [s | s | | s m e]; try discriminate H;
    destruct s; try discriminate H; reflexivity.
Qed.

(** A finite number other than 0 has a sign, a mantissa and an exponent. *)
Lemma finite_nonzero (x : float) :
  PrimFloat.is_finite x = true -> PrimFloat.is_zero x = false ->
  exists s m e, Prim2SF x = S754_finite s m e.
Proof.
  unfold PrimFloat.is_finite, PrimFloat.is_nan, PrimFloat.is_infinity,
    PrimFloat.is_zero.
  rewrite !FloatAxioms.eqb_spec, FloatAxioms.abs_spec.
  change (Prim2SF PrimFloat.infinity) with (S754_infinity false).
  change (Prim2SF PrimFloat.zero) with (S754_zero false).
  destruct (Prim2SF x) as [s | s | | s m e]; intros Hfin Hzero.
  - by destruct s.
  - by destruct s.
  - done.
  - eauto.
Qed.

(** The quotient of such a number by itself is 1: the mantissa shifted by 53
    bits is divided by itself without a remainder. *)
Lemma div_eucl_shiftl (m : positive) :
  Z.div_eucl (Z.shiftl (Z.pos m) 53) (Z.pos m) = (9007199254740992%Z, 0%Z).
Proof.
  rewrite Z.shiftl_mul_pow2 by done.
  destruct (Z.div_eucl _ _) as [q r] eqn:H.
  assert ((Z.pos m * 2 ^ 53) `div` Z.pos m = q)%Z as Hq
    by (unfold Z.div; by rewrite H).
  assert ((Z.pos m * 2 ^ 53) `mod` Z.pos m = r)%Z as Hr
    by (unfold Z.modulo; by rewrite H).
  rewrite Z.mul_comm, Z.div_mul in Hq by done.
  rewrite Z.mul_comm, Z.mod_mul in Hr by done.
  by subst.
Qed.

Lemma SF64div_diag s m e :
  SF64div (S754_finite s m e) (S754_finite s m e)
  = S754_finite false 4503599627370496 (-52).
Proof.
  unfold SF64div, SFdiv, SFdiv_core_binary.
  rewrite !Z.sub_diag.
  change (Z.min (fexp prec emax 0) 0) with (-53)%Z.
  change (0 - -53)%Z with 53%Z. cbv iota beta.
  rewrite div_eucl_shiftl, xorb_nilpotent.
  unfold new_location. destruct (Z.even (Z.pos m)); reflexivity.
Qed.

Lemma div_diag (x : float) :
  PrimFloat.is_finite x = true -> PrimFloat.is_zero x = false ->
  PrimFloat.sub (PrimFloat.div x x) 1 = 0%float.
Proof.
  intros Hfin Hzero.
  destruct (finite_nonzero x Hfin Hzero) as (s & m & e & Hx).
  apply Prim2SF_inj.
  rewrite sub_spec, div_spec, Hx, SF64div_diag, Prim2SF_one. reflexivity.
Qed.

(** ** [parse_bar_list] *)

Lemma fmap_close_row_of_bar (bar_list : list Bar.t) :
  (fun r : Z * pd.Row => pd.close (snd r)) <$> (pd.row_of_bar <$> bar_list)
  = Bar.close <$> bar_list.
Proof. by rewrite <- list_fmap_compose. Qed.

Lemma parse_bar_list_nil source asset :
  Bars.parse_bar_list [] source asset = inl (KeyError "timestamp").
Proof. reflexivity. Qed.

(** On a list with a record, [parse_bar_list] returns the series whose frame
    has the rows of the list and the derived columns. *)
Lemma parse_bar_list_cons b l source asset :
  let bar_list := b :: l in
  let close := Bar.close <$> bar_list in
  let dividend := Bar.dividend <$> bar_list in
  let price_change := pd.pct_change 1 (Some <$> close) in
  let dividend_yield := pd.series_div (Some <$> dividend) (Some <$> close) in
  Bars.parse_bar_list bar_list source asset
  = inr {| Bars.df :=
             {| pd.rows := pd.row_of_bar <$> bar_list;
                pd.dividend := Some dividend;
                pd.stock_splits := Some (Bar.stock_splits <$> bar_list);
                pd.price_change := Some price_change;
                pd.dividend_yield := Some dividend_yield;
                pd.return_ := Some (pd.series_add dividend_yield price_change) |};
           Bars.source := upper source;
           Bars.asset := asset;
           Bars.symbol := upper (Asset.symbol asset);
           Bars._raw := Some (Bars.RawBarList bar_list) |}.
Proof.
  intros bar_list close dividend price_change dividend_yield.
  unfold Bars.parse_bar_list, pd.DataFrame_set_index.
  subst bar_list. cbv beta iota zeta delta [bind ret].
  unfold pd.set_price_change, pd.set_dividend_yield, pd.set_return,
    pd.getitem, Bars.call, pd.column.
  cbn [pd.rows pd.dividend pd.stock_splits pd.price_change pd.dividend_yield
       pd.return_ bind ret].
  rewrite init_nonempty by (unfold pd.shape0; simpl; lia).
  by rewrite !fmap_close_row_of_bar.
Qed.

Lemma parse_bar_list_inr bar_list source asset bars :
  Bars.parse_bar_list bar_list source asset = inr bars ->
  bar_list ≠ []
  /\ pd.rows (Bars.df bars) = pd.row_of_bar <$> bar_list
  /\ pd.column pd.close (Bars.df bars) = Bar.close <$> bar_list
  /\ pd.dividend (Bars.df bars) = Some (Bar.dividend <$> bar_list)
  /\ pd.stock_splits (Bars.df bars) = Some (Bar.stock_splits <$> bar_list)
  /\ pd.price_change (Bars.df bars)
     = Some (pd.pct_change 1 (Some <$> (Bar.close <$> bar_list)))
  /\ pd.dividend_yield (Bars.df bars)
     = Some (pd.series_div (Some <$> (Bar.dividend <$> bar_list))
                           (Some <$> (Bar.close <$> bar_list)))
  /\ pd.return_ (Bars.df bars)
     = Some (pd.series_add
               (pd.series_div (Some <$> (Bar.dividend <$> bar_list))
                              (Some <$> (Bar.close <$> bar_list)))
               (pd.pct_change 1 (Some <$> (Bar.close <$> bar_list)))).
Proof.
  destruct bar_list as [| b l]; [discriminate |].
  rewrite parse_bar_list_cons. intros [= <-]. cbn [Bars.df].
  split; [done |]. split; [done |]. split; [| done].
  exact (fmap_close_row_of_bar (b :: l)).
Qed.

(** C2.  For every non-empty list of bar records, [parse_bar_list] returns a
    series, and in every row [i] of it the dividend yield is the dividend
    over the close and the return is the dividend yield plus the price
    change. *)
Theorem C2_dividend_yield_and_return bar_list source asset :
  bar_list ≠ [] ->
  exists bars dividend dividend_yield price_change return_,
    Bars.parse_bar_list bar_list source asset = inr bars
    /\ pd.shape0 (Bars.df bars) = length bar_list
    /\ pd.dividend (Bars.df bars) = Some dividend
    /\ pd.dividend_yield (Bars.df bars) = Some dividend_yield
    /\ pd.price_change (Bars.df bars) = Some price_change
    /\ pd.return_ (Bars.df bars) = Some return_
    /\ forall i, i < pd.shape0 (Bars.df bars) ->
         exists d c dy pc r,
           dividend !! i = Some d
           /\ pd.column pd.close (Bars.df bars) !! i = Some c
           /\ dividend_yield !! i = Some dy
           /\ price_change !! i = Some pc
           /\ return_ !! i = Some r
           /\ dy = pd.cell_div (Some d) (Some c)
           /\ r = pd.cell_add dy pc.
Proof.
  intros Hne. destruct bar_list as [| b l]; [done |].
  eexists _, _, _, _, _. rewrite parse_bar_list_cons.
  split; [reflexivity |]. cbn [Bars.df pd.dividend pd.dividend_yield
    pd.price_change pd.return_].
  split; [unfold pd.shape0; cbn [pd.rows]; by rewrite length_fmap |].
  do 4 (split; [reflexivity |]).
  unfold pd.shape0, pd.column. cbn [pd.rows]. rewrite length_fmap.
  intros i Hi. rewrite fmap_close_row_of_bar.
  destruct (lookup_lt_is_Some_2 (b :: l) i Hi) as [bi Hbi].
  assert (is_Some (pd.pct_change 1 (Some <$> (Bar.close <$> b :: l)) !! i))
    as [pc Hpc].
  { apply lookup_lt_is_Some. by rewrite length_pct_change, !length_fmap. }
  exists (Bar.dividend bi), (Bar.close bi),
    (pd.cell_div (Some (Bar.dividend bi)) (Some (Bar.close bi))), pc,
    (pd.cell_add (pd.cell_div (Some (Bar.dividend bi)) (Some (Bar.close bi))) pc).
  unfold pd.series_add, pd.series_div.
  rewrite !lookup_zip_with, !list_lookup_fmap, Hbi, Hpc. done.
Qed.

(** On the bars with closes 64, 96, 48 and dividends 16, 24, 0 the dividend
    yields are 1/4, 1/4, 0, the price changes are undefined, 1/2, -1/2, and
    the returns are undefined, 3/4, -1/2. *)
Lemma C2_dividend_yield_and_return_witness :
  dividend_bars ≠ []
  /\ exists bars dividend_yield price_change return_,
       Bars.parse_bar_list dividend_bars "alpaca" AAPL = inr bars
       /\ pd.dividend_yield (Bars.df bars) = Some dividend_yield
       /\ pd.price_change (Bars.df bars) = Some price_change
       /\ pd.return_ (Bars.df bars) = Some return_
       /\ dividend_yield !! 1 = Some (Some (Q2Qc (1 # 4)))
       /\ price_change !! 1 = Some (Some (Q2Qc (1 # 2)))
       /\ return_ !! 1 = Some (Some (Q2Qc (3 # 4)))
       /\ dividend_yield !! 2 = Some (Some 0%Qc)
       /\ return_ !! 2 = Some (Some (Q2Qc (-1 # 2)))
       /\ return_ !! 0 = Some None.
Proof.
  split; [discriminate |].
  destruct (C2_dividend_yield_and_return dividend_bars "alpaca" AAPL)
    as (bars & dividend & dy & pc & r & Hbars & Hn & Hd & Hdy & Hpc & Hr
        & Hrows);
    [discriminate |].
  exists bars, dy, pc, r.
  do 4 (split; [assumption |]).
  rewrite Hn in Hrows.
  destruct (Hrows 0) as (d0 & c0 & y0 & p0 & r0 & Hd0 & Hc0 & Hy0 & Hp0 & Hr0
                         & -> & ->); [simpl; lia |].
  destruct (Hrows 1) as (d1 & c1 & y1 & p1 & r1 & Hd1 & Hc1 & Hy1 & Hp1 & Hr1
                         & -> & ->); [simpl; lia |].
  destruct (Hrows 2) as (d2 & c2 & y2 & p2 & r2 & Hd2 & Hc2 & Hy2 & Hp2 & Hr2
                         & -> & ->); [simpl; lia |].
  rewrite Hy1, Hp1, Hr1, Hy2, Hr2, Hr0.
  vm_compute in Hbars. injection Hbars as <-.
  vm_compute in Hd, Hpc. injection Hd as <-. injection Hpc as <-.
  vm_compute in Hd0, Hd1, Hd2, Hc0, Hc1, Hc2, Hp0, Hp1, Hp2.
  injection Hd0 as <-. injection Hd1 as <-. injection Hd2 as <-.
  injection Hc0 as <-. injection Hc1 as <-. injection Hc2 as <-.
  injection Hp0 as <-. injection Hp1 as <-. injection Hp2 as <-.
  repeat split; qc_refl.
Defined.

(** C3, as amended.  In every series returned by [parse_bar_list] the price
    change of the first row is undefined, and the price change of every
    later row is the close of the row divided by the close of the row
    before, minus 1: the two operations of [pct_change], in this order.
    The same holds bit for bit of [pct_change] on a float64 close column
    without NaN: the first entry is NaN and every later entry is
    [cur / prev - 1] in binary64. *)
Theorem C3_price_change bar_list source asset bars :
  Bars.parse_bar_list bar_list source asset = inr bars ->
  (exists price_change,
     pd.price_change (Bars.df bars) = Some price_change
     /\ length price_change = pd.shape0 (Bars.df bars)
     /\ price_change !! 0 = Some None
     /\ forall i prev cur,
          pd.column pd.close (Bars.df bars) !! i = Some prev ->
          pd.column pd.close (Bars.df bars) !! S i = Some cur ->
          price_change !! S i
          = Some (pd.cell_sub (pd.cell_div (Some cur) (Some prev))
                              (Some 1%Qc)))
  /\ (forall close : list float,
        close ≠ [] -> no_nan close ->
        length (float64.price_change close) = length close
        /\ float64.price_change close !! 0 = Some PrimFloat.nan
        /\ forall i prev cur,
             close !! i = Some prev -> close !! S i = Some cur ->
             float64.price_change close !! S i
             = Some (PrimFloat.sub (PrimFloat.div cur prev) 1%float)).
Proof.
  intros H. split.
  - apply parse_bar_list_inr in H
      as (Hne & Hrows & Hclose & _ & _ & Hpc & _).
    eexists. split; [exact Hpc |]. rewrite Hclose. split; [| split].
    + rewrite length_pct_change, !length_fmap.
      unfold pd.shape0. by rewrite Hrows, length_fmap.
    + apply lookup_pct_change_lt; [lia |].
      rewrite length_fmap. destruct bar_list; [done | simpl; lia].
    + intros i prev cur Hprev Hcur.
      apply lookup_pct_change_ge; [lia | | done].
      by replace (S i - 1) with i by lia.
  - intros close Hne Hnan. unfold float64.price_change.
    split; [by apply float64_length_pct_change |]. split.
    + apply float64_lookup_pct_change_lt; [done | lia |].
      destruct close; [done | simpl; lia].
    + intros i prev cur Hprev Hcur.
      apply float64_lookup_pct_change_ge; [done | lia | | done].
      by replace (S i - 1) with i by lia.
Qed.

Lemma C3_price_change_witness :
  exists bars price_change,
    Bars.parse_bar_list dividend_bars "alpaca" AAPL = inr bars
    /\ pd.price_change (Bars.df bars) = Some price_change
    /\ price_change !! 0 = Some None
    /\ price_change !! 1 = Some (Some (Q2Qc (1 # 2)))
    /\ price_change !! 2 = Some (Some (Q2Qc (-1 # 2)))
    /\ float64.price_change (snd <$> dividend_closes)
       = [PrimFloat.nan; 0.5%float; (-0.5)%float].
Proof.
  eexists.
  destruct (C3_price_change dividend_bars "alpaca" AAPL _ eq_refl)
    as [(pc & Hpc & _ & H0 & Hrows) Hfloat].
  exists pc. split; [reflexivity |]. split; [exact Hpc |].
  split; [exact H0 |].
  split; [| split].
  - rewrite (Hrows 0 (Qc_of_Z 64) (Qc_of_Z 96) eq_refl eq_refl). qc_refl.
  - rewrite (Hrows 1 (Qc_of_Z 96) (Qc_of_Z 48) eq_refl eq_refl). qc_refl.
  - destruct (Hfloat (snd <$> dividend_closes)) as (_ & Hf0 & Hf);
      [discriminate | repeat constructor |].
    apply list_eq. intros [| [| [| i]]].
    + exact Hf0.
    + exact (Hf 0 64%float 96%float eq_refl eq_refl).
    + exact (Hf 1 96%float 48%float eq_refl eq_refl).
    + reflexivity.
Defined.

(** C3 as it is stated fails in binary64: for the closes 100 and 101 the
    price change of the second row is [101 / 100 - 1], the float
    0.010000000000000009, and not [(101 - 100) / 100], the float 0.01. *)
Lemma C3_counterexample :
  float64.price_change [100%float; 101%float] !! 1
  = Some 0.010000000000000009%float
  /\ PrimFloat.div (PrimFloat.sub 101 100) 100 = 0.01%float
  /\ ~ (forall (close : list float) i prev cur,
          close !! i = Some prev -> close !! S i = Some cur ->
          float64.price_change close !! S i
          = Some (PrimFloat.div (PrimFloat.sub cur prev) prev)).
Proof.
  split; [reflexivity |]. split; [reflexivity |].
  intros H.
  specialize (H [100%float; 101%float] 0 100%float 101%float eq_refl eq_refl).
  apply (inj Some) in H.
  apply (f_equal (fun x => PrimFloat.eqb x 0.01%float)) in H.
  vm_compute in H. discriminate H.
Qed.

(** ** The provider path *)

(** C4.  The provider path does not build a series: the call [Bars(df,
    raw=response)] in [_parse_source_symbol_bars] leaves out [source] and
    [asset], so it raises [TypeError] for every frame, and so does
    [_parse_source_bars] for every response that has a symbol. *)
Theorem C4_provider_path_raises :
  (forall response,
     AlpacaData._parse_source_symbol_bars response
     = inl (TypeError "__init__() missing 2 required positional arguments: 'source' and 'asset'"))
  /\ (forall symbol frame rest,
        AlpacaData._parse_source_bars ((symbol, frame) :: rest)
        = inl (TypeError "__init__() missing 2 required positional arguments: 'source' and 'asset'"))
  /\ AlpacaData._parse_source_symbol_bars (frame_of three_bars)
     = inl (TypeError "__init__() missing 2 required positional arguments: 'source' and 'asset'").
Proof.
  assert (forall response,
     AlpacaData._parse_source_symbol_bars response
     = inl (TypeError "__init__() missing 2 required positional arguments: 'source' and 'asset'"))
    as H by reflexivity.
  split; [exact H |]. split; [| apply H].
  intros symbol frame rest. unfold AlpacaData._parse_source_bars.
  cbn [AlpacaData._parse_source_bars_loop]. by rewrite H.
Qed.

(** ** Live series *)

Lemma call_inr df source asset raw bars :
  Bars.call df (Some source) (Some asset) raw = inr bars ->
  1 ≤ pd.shape0 (Bars.df bars) /\ Bars.df bars = df.
Proof.
  cbn [Bars.call]. intros H. apply init_inr in H as (Hn & -> & _).
  split; [lia | done].
Qed.

Lemma aggregate_bars_call self frequency :
  Bars.aggregate_bars self frequency
  = Bars.__init__ (pd.dropna (pd.groupby_agg frequency (Bars.df self)))
      (Bars.source self) (Bars.asset self) None.
Proof.
  unfold Bars.aggregate_bars. cbn [Bars.call].
  by destruct (Bars.__init__ _ _ _ _).
Qed.

(** C5, as amended.  Every series whose construction completes has at least
    one row, the constructor being where an empty frame is refused; a series
    built from a list of bar records has the columns price_change, dividend,
    dividend_yield and return; a series built by [aggregate_bars] has the
    five price columns and none of the derived ones. *)
Theorem C5_live_series o bars :
  live o bars ->
  1 ≤ pd.shape0 (Bars.df bars)
  /\ match o with
     | FromBarList => derived_present (Bars.df bars)
     | FromAggregate => derived_absent (Bars.df bars)
     end.
Proof.
  intros [bar_list source asset b H | self frequency b H].
  - destruct bar_list as [| b0 l]; [discriminate |].
    rewrite parse_bar_list_cons in H. injection H as <-.
    unfold derived_present, pd.shape0. cbn. split; [lia |]. eauto 10.
  - rewrite aggregate_bars_call in H.
    apply init_inr in H as (Hn & -> & _). split; [lia |]. by repeat split.
Qed.

Lemma C5_live_series_witness :
  exists bars,
    live FromBarList bars /\ 1 ≤ pd.shape0 (Bars.df bars)
    /\ derived_present (Bars.df bars).
Proof.
  eexists. 
  pose proof (live_parse_bar_list three_bars "alpaca" AAPL _ eq_refl) as L.
  split; [exact L |]. exact (C5_live_series FromBarList _ L).
Defined.

(** C5 as it is stated fails: the series that [aggregate_bars] returns for
    the three example bars, grouped by two minutes, is live and has no
    price_change column. *)
Lemma C5_counterexample :
  ~ (forall o bars,
       live o bars ->
       1 ≤ pd.shape0 (Bars.df bars) /\ derived_present (Bars.df bars)).
Proof.
  intros H.
  assert (exists bars0 bars,
            Bars.parse_bar_list three_bars "alpaca" AAPL = inr bars0
            /\ Bars.aggregate_bars bars0 (pd.mkGrouper 120000000000 0)
               = inr bars
            /\ pd.price_change (Bars.df bars) = None)
    as (bars0 & bars & _ & Hagg & Hpc).
  { eexists _, _. split; [reflexivity |]. split; vm_compute; reflexivity. }
  destruct (H FromAggregate bars (live_aggregate_bars _ _ _ Hagg))
    as (_ & [x Hx] & _).
  rewrite Hpc in Hx. discriminate Hx.
Qed.

(** ** Filtering *)

Lemma select_fmap {A : Type} (f : A -> bool) (l : list A) :
  pd.select (f <$> l) l = filter (fun x => Is_true (f x)) l.
Proof.
  induction l as [| x l IH]; [done |].
  cbn [fmap list_fmap pd.select]. rewrite filter_cons.
  destruct (f x); cbn; by rewrite IH.
Qed.

Lemma rows_getitem_mask_index (f : Z -> bool) df :
  pd.rows (pd.getitem_mask (f <$> pd.index df) df)
  = filter (fun r => Is_true (f (fst r))) (pd.rows df).
Proof.
  unfold pd.index. cbn [pd.getitem_mask pd.rows].
  rewrite <- list_fmap_compose. apply (select_fmap (f ∘ fst)).
Qed.

Lemma filter_all {A : Type} (P : A -> Prop) `{!forall x, Decision (P x)}
    (l : list A) :
  (forall x, P x) -> filter P l = l.
Proof.
  intros HP. induction l as [| x l IH]; [done |].
  by rewrite filter_cons_True, IH.
Qed.

(** [filter] keeps the rows of the window, in their order. *)
Lemma rows_filter self start end_ :
  pd.rows (Bars.filter self start end_)
  = window start end_ (pd.rows (Bars.df self)).
Proof.
  unfold Bars.filter, window, in_window.
  destruct start as [s |], end_ as [e |];
    rewrite ?rows_getitem_mask_index, ?list_filter_filter.
  - apply list_filter_iff. intros r. rewrite andb_True. tauto.
  - apply list_filter_iff. intros r. rewrite andb_True. cbn. tauto.
  - apply list_filter_iff. intros r. rewrite andb_True. cbn. tauto.
  - symmetry. by apply filter_all.
Qed.

Lemma elem_of_window start end_ l t r :
  (t, r) ∈ window start end_ l
  <-> (t, r) ∈ l
      /\ (forall s, start = Some s -> (s ≤ t)%Z)
      /\ (forall e, end_ = Some e -> (t ≤ e)%Z).
Proof.
  unfold window, in_window. rewrite list_elem_of_filter. cbn [fst].
  rewrite andb_True.
  destruct start as [s |], end_ as [e |]; rewrite ?bool_decide_spec;
    (split;
     [ intros [[Hs He] Hin]; repeat split; [done | by intros ? [= <-] ..]
     | intros (Hin & Hs & He); repeat split; eauto ]).
Qed.

(** ** Momentum *)

Lemma iloc_last_pct_change (l : list Qc) first_ last_ :
  head l = Some first_ -> last l = Some last_ ->
  pd.iloc_last (pd.pct_change (length l - 1) (Some <$> l))
  = ret (pd.cell_div (Some (last_ - first_)%Qc) (Some first_)).
Proof.
  intros Hh Hl. unfold pd.iloc_last.
  rewrite last_lookup, length_pct_change, length_fmap.
  rewrite head_lookup in Hh. rewrite last_lookup in Hl.
  replace (pred (length l)) with (length l - 1) in * by lia.
  rewrite (lookup_pct_change_ge _ _ _ first_ last_); [| lia | | done].
  - by rewrite cell_pct.
  - by replace (length l - 1 - (length l - 1)) with 0 by lia.
Qed.

(** In exact arithmetic [get_momentum] returns the change from the first
    close of the window to the last one; it returns 0 for a window without
    rows. *)
Lemma get_momentum_window self start end_ :
  Bars.get_momentum self start end_
  = ret (momentum_of (window start end_ (pd.rows (Bars.df self)))).
Proof.
  unfold Bars.get_momentum, pd.shape0, pd.column.
  rewrite rows_filter. set (w := window _ _ _).
  case_decide as Hn.
  - apply length_zero_iff_nil in Hn. by rewrite Hn.
  - destruct (head w) as [r0 |] eqn:Hh; [| by destruct w].
    destruct (last w) as [r1 |] eqn:Hl;
      [| by apply last_None in Hl; subst w; rewrite Hl in Hn].
    unfold momentum_of. rewrite Hh, Hl.
    rewrite <- (length_fmap (fun r : Z * pd.Row => pd.close (snd r)) w).
    apply iloc_last_pct_change.
    + destruct w; [done |]. by injection Hh as ->.
    + by rewrite fmap_last, Hl.
Qed.

(** The same in the order of the operations of [pct_change]: the last close
    is divided by the first, and 1 is subtracted. *)
Lemma get_momentum_ends self start end_ r0 r1 :
  head (window start end_ (pd.rows (Bars.df self))) = Some r0 ->
  last (window start end_ (pd.rows (Bars.df self))) = Some r1 ->
  Bars.get_momentum self start end_
  = ret (pd.cell_sub (pd.cell_div (Some (pd.close (snd r1)))
                                  (Some (pd.close (snd r0))))
                     (Some 1%Qc)).
Proof.
  intros Hh Hl. unfold Bars.get_momentum, pd.shape0, pd.column.
  rewrite rows_filter. set (w := window _ _ _) in *.
  rewrite decide_False by (by destruct w).
  unfold pd.iloc_last.
  rewrite last_lookup, length_pct_change, !length_fmap.
  rewrite head_lookup in Hh. rewrite last_lookup in Hl.
  replace (pred (length w)) with (length w - 1) in * by lia.
  rewrite (lookup_pct_change_ge _ _ _ (pd.close (snd r0)) (pd.close (snd r1)));
    [done | lia | |].
  - replace (length w - 1 - (length w - 1)) with 0 by lia.
    by rewrite list_lookup_fmap, Hh.
  - by rewrite list_lookup_fmap, Hl.
Qed.




(** C10, as amended.  When the window holds exactly one row and the close
    of that row is not 0, [get_momentum] returns 0. *)
Theorem C10_single_row_momentum self start end_ t r :
  pd.rows (Bars.filter self start end_) = [(t, r)] ->
  pd.close r ≠ 0%Qc ->
  Bars.get_momentum self start end_ = ret (Some 0%Qc).
Proof.
  intros Hw Hc. rewrite get_momentum_window, <- rows_filter, Hw.
  unfold momentum_of. cbn [head last snd]. rewrite <- cell_pct.
  by rewrite cell_pct_same.
Qed.

Lemma C10_single_row_momentum_witness :
  pd.rows (Bars.filter (series_of three_bars) (Some minute_ns) (Some minute_ns))
  = [pd.row_of_bar (flat_bar minute_ns 100 10)]
  /\ Bars.get_momentum (series_of three_bars) (Some minute_ns) (Some minute_ns)
     = ret (Some 0%Qc).
Proof.
  split; [reflexivity |].
  apply (C10_single_row_momentum (series_of three_bars) (Some minute_ns)
           (Some minute_ns) minute_ns
           (snd (pd.row_of_bar (flat_bar minute_ns 100 10))));
    [reflexivity |].
  intros H. apply (f_equal this) in H. vm_compute in H. discriminate H.
Defined.

(** C10 as it is stated fails: for a series whose only row closes at 0 the
    window over everything holds one row, and [get_momentum] returns the
    undefined value (0 divided by 0), not 0. *)
Lemma C10_counterexample :
  ~ (forall self start end_ t r,
       pd.rows (Bars.filter self start end_) = [(t, r)] ->
       Bars.get_momentum self start end_ = ret (Some 0%Qc)).
Proof.
  intros H.
  specialize (H (series_of [flat_bar minute_ns 0 10]) None None minute_ns
                (snd (pd.row_of_bar (flat_bar minute_ns 0 10))) eq_refl).
  vm_compute in H. discriminate H.
Qed.

(** ** [split] and the way back *)

Lemma row_of_bar_split self :
  pd.row_of_bar <$> Bars.split self
  = (fun r => (Z.quot (fst r) 1000000000, snd r)) <$> pd.rows (Bars.df self).
Proof.
  unfold Bars.split. rewrite fmap_imap, <- imap_const.
  apply imap_ext. intros i [t [o h l c v]] _. reflexivity.
Qed.

(** C8.  For every series with a row, the bar records that [split] returns
    are accepted by [parse_bar_list], and the series built from them has, row
    by row and in the same order, the open, high, low, close and volume of the
    original; the price change is computed again from the closes. *)
Theorem C8_split_round_trip self :
  pd.rows (Bars.df self) ≠ [] ->
  exists bars,
    Bars.parse_bar_list (Bars.split self) (Bars.source self) (Bars.asset self)
    = inr bars
    /\ length (Bars.split self) = pd.shape0 (Bars.df self)
    /\ snd <$> pd.rows (Bars.df bars) = snd <$> pd.rows (Bars.df self)
    /\ (forall i t r,
          pd.rows (Bars.df self) !! i = Some (t, r) ->
          pd.rows (Bars.df bars) !! i = Some (Z.quot t 1000000000, r))
    /\ pd.price_change (Bars.df bars)
       = Some (pd.pct_change 1 (Some <$> pd.column pd.close (Bars.df self))).
Proof.
  intros Hne.
  destruct (Bars.split self) as [| b l] eqn:Hs.
  { apply (f_equal length) in Hs. unfold Bars.split in Hs.
    rewrite length_imap in Hs. by destruct (pd.rows (Bars.df self)). }
  eexists. rewrite parse_bar_list_cons. split; [reflexivity |].
  cbn [Bars.df pd.rows pd.price_change]. rewrite <- Hs, row_of_bar_split.
  split; [| split; [| split]].
  - unfold Bars.split, pd.shape0. by rewrite length_imap.
  - by rewrite <- list_fmap_compose.
  - intros i t r Hi. by rewrite list_lookup_fmap, Hi.
  - do 2 f_equal. rewrite <- fmap_close_row_of_bar, row_of_bar_split.
    unfold pd.column. by rewrite <- !list_fmap_compose.
Qed.

Lemma C8_split_round_trip_witness :
  pd.rows (Bars.df (series_of three_bars)) ≠ []
  /\ exists bars,
       Bars.parse_bar_list (Bars.split (series_of three_bars)) "ALPACA" AAPL
       = inr bars
       /\ snd <$> pd.rows (Bars.df bars)
          = snd <$> pd.rows (Bars.df (series_of three_bars)).
Proof.
  split; [discriminate |].
  destruct (C8_split_round_trip (series_of three_bars))
    as (bars & Hbars & _ & Hrows & _); [discriminate |].
  exists bars. split; [exact Hbars | exact Hrows].
Defined.

(** ** ISO-8601 text *)

Lemma digit_val_digit n :
  datetime.digit_val (datetime.digit n) = Some (n `mod` 10)%Z.
Proof.
  unfold datetime.digit_val, datetime.digit.
  pose proof (Z.mod_pos_bound n 10 eq_refl) as Hn.
  rewrite N_ascii_embedding by lia.
  rewrite (proj2 (andb_true_iff _ _)) by (split; apply N.leb_le; lia).
  f_equal. lia.
Qed.

Lemma read_pad2 acc n rest :
  datetime.read_digits 2 acc (datetime.pad2 n ++ rest)
  = Some ((100 * acc + n `mod` 100)%Z, rest).
Proof.
  unfold datetime.pad2. cbv [String.append]. cbn [datetime.read_digits].
  rewrite !digit_val_digit. cbn [mbind option_bind].
  do 2 f_equal. Z.div_mod_to_equations. lia.
Qed.

Lemma read_pad4 acc n rest :
  datetime.read_digits 4 acc (datetime.pad4 n ++ rest)
  = Some ((10000 * acc + n `mod` 10000)%Z, rest).
Proof.
  unfold datetime.pad4, datetime.pad2. cbv [String.append].
  cbn [datetime.read_digits].
  rewrite !digit_val_digit. cbn [mbind option_bind].
  do 2 f_equal. Z.div_mod_to_equations. lia.
Qed.

Lemma read_pad6 acc n rest :
  datetime.read_digits 6 acc (datetime.pad6 n ++ rest)
  = Some ((1000000 * acc + n `mod` 1000000)%Z, rest).
Proof.
  unfold datetime.pad6, datetime.pad4, datetime.pad2. cbv [String.append].
  cbn [datetime.read_digits].
  rewrite !digit_val_digit. cbn [mbind option_bind].
  do 2 f_equal. Z.div_mod_to_equations. lia.
Qed.

Lemma read_pad2_end acc n :
  datetime.read_digits 2 acc (datetime.pad2 n)
  = Some ((100 * acc + n `mod` 100)%Z, EmptyString).
Proof.
  unfold datetime.pad2. cbn [datetime.read_digits].
  rewrite !digit_val_digit. cbn [mbind option_bind].
  do 2 f_equal. Z.div_mod_to_equations. lia.
Qed.

Lemma append_char c s : (String c EmptyString ++ s)%string = String c s.
Proof. reflexivity. Qed.

Lemma append_String c s1 s2 :
  (String c s1 ++ s2)%string = String c (s1 ++ s2)%string.
Proof. reflexivity. Qed.

Lemma append_empty s : (EmptyString ++ s)%string = s.
Proof. reflexivity. Qed.

Lemma expect_String c s : datetime.expect c (String c s) = Some s.
Proof. unfold datetime.expect. by rewrite decide_True. Qed.

Lemma read_offset_isoformat tz :
  match tz with Some o => datetime.valid_offset o | None => true end = true ->
  datetime.read_offset (datetime.isoformat_offset tz) = Some tz.
Proof.
  destruct tz as [o |]; [| done]. unfold datetime.valid_offset.
  intros Ho%bool_decide_eq_true. unfold datetime.isoformat_offset.
  assert (datetime.read_hhmm
            (datetime.pad2 (Z.abs o `div` 60) ++ ":"
             ++ datetime.pad2 (Z.abs o `mod` 60))
          = Some (Z.abs o)) as Hhhmm.
  { unfold datetime.read_hhmm.
    rewrite read_pad2. cbn [mbind option_bind].
    rewrite append_char, expect_String. cbn [mbind option_bind].
    rewrite read_pad2_end. cbn [mbind option_bind].
    f_equal. Z.div_mod_to_equations. lia. }
  case_bool_decide as Hneg; rewrite append_char; unfold datetime.read_offset.
  - rewrite decide_False by discriminate. rewrite decide_True by done.
    rewrite Hhhmm. cbn [mbind option_bind]. do 2 f_equal. lia.
  - rewrite decide_True by done.
    rewrite Hhhmm. cbn [mbind option_bind]. do 2 f_equal. lia.
Qed.

Lemma read_fraction_offset tz :
  datetime.read_fraction (datetime.isoformat_offset tz)
  = Some (0%Z, datetime.isoformat_offset tz).
Proof.
  destruct tz as [o |]; [| done]. unfold datetime.isoformat_offset.
  case_bool_decide; rewrite append_char; unfold datetime.read_fraction;
    by rewrite decide_False by discriminate.
Qed.

(** Reading back what [isoformat] wrote gives the value that was written. *)
Lemma fromisoformat_isoformat dt :
  datetime.valid dt = true ->
  datetime.fromisoformat (datetime.isoformat dt) = Some dt.
Proof.
  destruct dt as [y mo d h mi s us tz]. unfold datetime.valid.
  cbn [datetime.year datetime.month datetime.day datetime.hour datetime.minute
       datetime.second datetime.microsecond datetime.tzinfo].
  rewrite !andb_true_iff, !bool_decide_eq_true.
  intros (((((((Hy & Hmo) & Hd) & Hh) & Hmi) & Hs) & Hus) & Htz).
  unfold datetime.fromisoformat, datetime.isoformat.
  cbn [datetime.year datetime.month datetime.day datetime.hour datetime.minute
       datetime.second datetime.microsecond datetime.tzinfo].
  rewrite read_pad4. cbn [mbind option_bind].
  do 2 (rewrite append_char, expect_String; cbn [mbind option_bind];
        rewrite read_pad2; cbn [mbind option_bind]).
  rewrite append_char, expect_String; cbn [mbind option_bind].
  rewrite read_pad2; cbn [mbind option_bind].
  do 2 (rewrite append_char, expect_String; cbn [mbind option_bind];
        rewrite read_pad2; cbn [mbind option_bind]).
  assert (datetime.read_fraction
            ((if bool_decide (us = 0%Z) then EmptyString
              else "." ++ datetime.pad6 us) ++ datetime.isoformat_offset tz)
          = Some (us, datetime.isoformat_offset tz)) as ->.
  { case_bool_decide as Hus0.
    - rewrite append_empty, read_fraction_offset. by subst us.
    - rewrite append_char, append_String. unfold datetime.read_fraction.
      rewrite decide_True by done. rewrite read_pad6.
      do 2 f_equal. rewrite Z.mod_small; lia. }
  cbn [mbind option_bind]. rewrite read_offset_isoformat by done.
  cbn [mbind option_bind]. f_equal.
  rewrite !Z.mul_0_r, !Z.add_0_l. f_equal; apply Z.mod_small; lia.
Qed.



(** ** Sorting by time *)

Lemma insert_row_perm x l : pd.insert_row x l ≡ₚ x :: l.
Proof.
  induction l as [| y l IH]; [done |]. cbn [pd.insert_row].
  case_bool_decide; [done |]. rewrite IH. apply Permutation_swap.
Qed.

Lemma sort_index_perm l : pd.sort_index l ≡ₚ l.
Proof.
  induction l as [| x l IH]; [done |]. unfold pd.sort_index. cbn [foldr].
  rewrite insert_row_perm. by f_equiv.
Qed.

Lemma insert_row_sorted x l :
  StronglySorted by_time l -> StronglySorted by_time (pd.insert_row x l).
Proof.
  induction 1 as [| y l Hl IH Hy]; cbn [pd.insert_row].
  - repeat constructor.
  - case_bool_decide as Hxy.
    + constructor; [by constructor |]. constructor; [done |].
      eapply Forall_impl; [exact Hy |]. intros z Hz. unfold by_time in *. lia.
    + constructor; [done |]. rewrite insert_row_perm.
      constructor; [unfold by_time; lia | done].
Qed.

Lemma sort_index_sorted l : StronglySorted by_time (pd.sort_index l).
Proof.
  induction l as [| x l IH]; [constructor |]. by apply insert_row_sorted.
Qed.

Lemma insert_row_head x l :
  Forall (by_time x) l -> pd.insert_row x l = x :: l.
Proof.
  destruct 1 as [| y l Hy _]; [done |]. cbn [pd.insert_row].
  by rewrite bool_decide_eq_true_2.
Qed.

(** A frame whose index is already in time order is left as it is. *)
Lemma sort_index_id l : StronglySorted by_time l -> pd.sort_index l = l.
Proof.
  induction 1 as [| x l Hl IH Hx]; [done |]. unfold pd.sort_index in *.
  cbn [foldr]. rewrite IH. by apply insert_row_head.
Qed.

Lemma sorted_head_le l r0 x :
  StronglySorted by_time l -> head l = Some r0 -> x ∈ l -> by_time r0 x.
Proof.
  destruct 1 as [| y l Hl Hy]; [done |]. intros [= ->].
  rewrite elem_of_cons. intros [-> | Hin]; [unfold by_time; lia |].
  by eapply Forall_forall in Hy.
Qed.

Lemma sorted_le_last l r1 x :
  StronglySorted by_time l -> last l = Some r1 -> x ∈ l -> by_time x r1.
Proof.
  induction 1 as [| y l Hl IH Hy]; [done |]. intros Hlast.
  rewrite elem_of_cons. destruct l as [| z l'].
  - injection Hlast as <-. intros [-> | Hin]; [unfold by_time; lia |].
    by apply elem_of_nil in Hin.
  - rewrite last_cons_cons in Hlast. intros [-> | Hin]; [| by apply IH].
    eapply Forall_forall in Hy; [exact Hy |].
    apply last_Some_elem_of. exact Hlast.
Qed.

(** ** Buckets *)

Lemma bucket_spec g t k :
  pd.bucket g t = k
  <-> (pd.label g k ≤ t < pd.label g k + Z.pos (pd.width g))%Z.
Proof.
  unfold pd.bucket, pd.label. split.
  - intros <-. Z.div_mod_to_equations. nia.
  - intros H. symmetry.
    apply (Z.div_unique_pos _ _ _ (t - pd.origin g - k * Z.pos (pd.width g)));
      lia.
Qed.

Lemma bucket_mono g t1 t2 : (t1 ≤ t2)%Z -> (pd.bucket g t1 ≤ pd.bucket g t2)%Z.
Proof. intros. unfold pd.bucket. apply Z.div_le_mono; lia. Qed.

Lemma label_lt g k1 k2 : (k1 < k2)%Z -> (pd.label g k1 < pd.label g k2)%Z.
Proof. intros. unfold pd.label. nia. Qed.

Lemma elem_of_bins g l t r :
  StronglySorted by_time l -> (t, r) ∈ l -> pd.bucket g t ∈ pd.bins g l.
Proof.
  intros Hs Hin. unfold pd.bins.
  destruct (head l) as [r0 |] eqn:Hh;
    [| by destruct l; [apply elem_of_nil in Hin |]].
  destruct (last l) as [r1 |] eqn:Hl;
    [| by apply last_None in Hl; subst l; apply elem_of_nil in Hin].
  pose proof (sorted_head_le _ _ _ Hs Hh Hin) as H0.
  pose proof (sorted_le_last _ _ _ Hs Hl Hin) as H1.
  unfold by_time in *. cbn [fst] in *.
  apply elem_of_seqZ.
  pose proof (bucket_mono g _ _ H0). pose proof (bucket_mono g _ _ H1). lia.
Qed.

Lemma elem_of_group g k l x :
  x ∈ pd.group g k l <-> exists t, (t, x) ∈ l /\ pd.bucket g t = k.
Proof.
  unfold pd.group. rewrite list_elem_of_fmap. split.
  - intros ([t r] & -> & [Hk Hin]%list_elem_of_filter). by exists t.
  - intros (t & Hin & Hk). exists (t, x). split; [done |].
    apply list_elem_of_filter. done.
Qed.

(** ** The aggregations *)

Lemma Qcmin_spec x y :
  (pd.Qcmin x y ≤ x)%Qc /\ (pd.Qcmin x y ≤ y)%Qc
  /\ (pd.Qcmin x y = x \/ pd.Qcmin x y = y).
Proof.
  unfold pd.Qcmin. case_decide as H.
  - split; [apply Qcle_refl |]. split; [done | by left].
  - apply Qcnot_le_lt, Qclt_le_weak in H.
    split; [done |]. split; [apply Qcle_refl | by right].
Qed.

Lemma Qcmax_spec x y :
  (x ≤ pd.Qcmax x y)%Qc /\ (y ≤ pd.Qcmax x y)%Qc
  /\ (pd.Qcmax x y = x \/ pd.Qcmax x y = y).
Proof.
  unfold pd.Qcmax. case_decide as H.
  - split; [done |]. split; [apply Qcle_refl | by right].
  - apply Qcnot_le_lt, Qclt_le_weak in H.
    split; [apply Qcle_refl |]. split; [done | by left].
Qed.

(** "min" returns a value of the column that is at most every value of the
    column, and "max" one that is at least every value. *)
Lemma agg_min_spec l m :
  pd.agg_min l = Some m -> m ∈ l /\ forall x, x ∈ l -> (m ≤ x)%Qc.
Proof.
  destruct l as [| x0 l]; [done |]. cbn [pd.agg_min]. intros [= <-].
  induction l as [| y l IH]; cbn [foldr].
  - split; [by left |]. intros x ->%list_elem_of_singleton. apply Qcle_refl.
  - destruct IH as [Hin Hle].
    destruct (Qcmin_spec y (foldr pd.Qcmin x0 l)) as (Hy & Hm & [Heq | Heq]);
      rewrite Heq in *.
    + split; [by right; left |]. intros x. rewrite !elem_of_cons.
      intros [-> | [-> | Hx]]; [| apply Qcle_refl |].
      * eapply Qcle_trans; [exact Hm |]. apply Hle. by left.
      * eapply Qcle_trans; [exact Hm |]. apply Hle. by right.
    + split.
      * apply elem_of_cons in Hin as [Hin | Hin]; rewrite !elem_of_cons; auto.
      * intros x. rewrite !elem_of_cons.
        intros [-> | [-> | Hx]]; [apply Hle; by left | done |].
        apply Hle. by right.
Qed.

Lemma agg_max_spec l m :
  pd.agg_max l = Some m -> m ∈ l /\ forall x, x ∈ l -> (x ≤ m)%Qc.
Proof.
  destruct l as [| x0 l]; [done |]. cbn [pd.agg_max]. intros [= <-].
  induction l as [| y l IH]; cbn [foldr].
  - split; [by left |]. intros x ->%list_elem_of_singleton. apply Qcle_refl.
  - destruct IH as [Hin Hle].
    destruct (Qcmax_spec y (foldr pd.Qcmax x0 l)) as (Hy & Hm & [Heq | Heq]);
      rewrite Heq in *.
    + split; [by right; left |]. intros x. rewrite !elem_of_cons.
      intros [-> | [-> | Hx]]; [| apply Qcle_refl |].
      * eapply Qcle_trans; [| exact Hm]. apply Hle. by left.
      * eapply Qcle_trans; [| exact Hm]. apply Hle. by right.
    + split.
      * apply elem_of_cons in Hin as [Hin | Hin]; rewrite !elem_of_cons; auto.
      * intros x. rewrite !elem_of_cons.
        intros [-> | [-> | Hx]]; [apply Hle; by left | done |].
        apply Hle. by right.
Qed.

(** [dropna] keeps the row of a group exactly when the group has a row. *)
Lemma dropna_row_nil t : pd.dropna_row (t, pd.agg_group []) = None.
Proof. reflexivity. Qed.

Lemma dropna_row_Some t grp t' r :
  pd.dropna_row (t, pd.agg_group grp) = Some (t', r) ->
  t' = t
  /\ (exists first_ last_,
        head grp = Some first_ /\ last grp = Some last_
        /\ pd.open r = pd.open first_ /\ pd.close r = pd.close last_)
  /\ pd.agg_min (pd.low <$> grp) = Some (pd.low r)
  /\ pd.agg_max (pd.high <$> grp) = Some (pd.high r)
  /\ pd.volume r = pd.sum (pd.volume <$> grp).
Proof.
  unfold pd.dropna_row, pd.agg_group.
  cbn [snd fst pd.agg_open pd.agg_close pd.agg_low pd.agg_high pd.agg_volume].
  unfold pd.agg_first, pd.agg_last, pd.agg_sum.
  rewrite fmap_last. destruct grp as [| x grp]; [done |].
  destruct (last (x :: grp)) as [y |] eqn:Hlast; [| done].
  cbn. intros [= <- <-]. cbn. eauto 10.
Qed.

Lemma dropna_row_is_Some t grp :
  grp ≠ [] -> exists r, pd.dropna_row (t, pd.agg_group grp) = Some (t, r).
Proof.
  destruct grp as [| x grp]; [done |]. intros _.
  unfold pd.dropna_row, pd.agg_group.
  cbn [snd fst pd.agg_open pd.agg_close pd.agg_low pd.agg_high pd.agg_volume].
  unfold pd.agg_first, pd.agg_last, pd.agg_sum. rewrite fmap_last.
  destruct (last (x :: grp)) as [y |] eqn:Hlast; [cbn; eauto |].
  by apply last_None in Hlast.
Qed.

(** ** The rows of the aggregated frame *)

Lemma seqZ_sorted m n : StronglySorted Z.lt (seqZ m n).
Proof.
  destruct (decide (n ≤ 0)%Z) as [Hn | Hn];
    [rewrite seqZ_nil by done; constructor |].
  rewrite <- (Z2Nat.id n) by lia. generalize (Z.to_nat n) as k. clear.
  intros k. revert m. induction k as [| k IH]; intros m.
  - rewrite seqZ_nil by done. constructor.
  - rewrite seqZ_cons by lia. constructor.
    + replace (Z.pred (Z.of_nat (S k))) with (Z.of_nat k) by lia. apply IH.
    + apply Forall_seqZ. lia.
Qed.

Lemma omap_sorted {A : Type} (f : A -> option (Z * pd.Row)) (key : A -> Z)
    (l : list A) :
  (forall x y, f x = Some y -> fst y = key x) ->
  StronglySorted Z.lt (key <$> l) ->
  StronglySorted Z.lt (fst <$> omap f l).
Proof.
  intros Hkey. induction l as [| x l IH]; [constructor |].
  cbn [fmap list_fmap]. intros [Hx Hl]%StronglySorted_cons.
  specialize (IH Hl). cbn [omap list_omap].
  destruct (f x) as [y |] eqn:Hfx; [| exact IH].
  cbn [fmap list_fmap]. constructor; [exact IH |].
  rewrite (Hkey _ _ Hfx). apply Forall_forall. intros t Ht.
  apply list_elem_of_fmap in Ht as (y' & -> & Hy').
  apply list_elem_of_omap in Hy' as (x' & Hx' & Hfx').
  rewrite (Hkey _ _ Hfx'). eapply Forall_forall in Hx; [exact Hx |].
  by apply list_elem_of_fmap_2.
Qed.

Lemma dropna_row_fst x y : pd.dropna_row x = Some y -> fst y = fst x.
Proof.
  unfold pd.dropna_row. intros H.
  repeat match type of H with
         | (?m ≫= _) = Some _ => destruct m; [cbn in H | discriminate H]
         end.
  by injection H as <-.
Qed.

Lemma elem_of_rows_aggregate g df t r :
  (t, r) ∈ pd.rows (pd.dropna (pd.groupby_agg g df))
  <-> exists k,
        k ∈ pd.bins g (pd.sort_index (pd.rows df))
        /\ pd.dropna_row
             (pd.label g k,
              pd.agg_group (pd.group g k (pd.sort_index (pd.rows df))))
           = Some (t, r).
Proof.
  unfold pd.dropna, pd.groupby_agg. cbn [pd.rows].
  rewrite list_elem_of_omap. split.
  - intros (x & (k & -> & Hk)%list_elem_of_fmap & Hx). eauto.
  - intros (k & Hk & Hx). eexists. split; [| exact Hx].
    apply list_elem_of_fmap. eauto.
Qed.

Lemma bins_sorted g l : StronglySorted Z.lt (pd.bins g l).
Proof.
  unfold pd.bins. destruct (head l), (last l);
    first [apply seqZ_sorted | constructor].
Qed.

Lemma rows_aggregate_sorted g df :
  StronglySorted Z.lt (fst <$> pd.rows (pd.dropna (pd.groupby_agg g df))).
Proof.
  unfold pd.dropna, pd.groupby_agg. cbn [pd.rows].
  apply (omap_sorted _ fst); [apply dropna_row_fst |].
  rewrite <- list_fmap_compose.
  apply (StronglySorted_fmap _ Z.lt); [| apply bins_sorted].
  intros k1 k2. apply label_lt.
Qed.

(** The bucket of every row of the frame is a row of the aggregated frame. *)
Lemma label_in_rows_aggregate g df t r :
  (t, r) ∈ pd.rows df ->
  pd.label g (pd.bucket g t)
    ∈ fst <$> pd.rows (pd.dropna (pd.groupby_agg g df)).
Proof.
  intros Hin. set (sorted := pd.sort_index (pd.rows df)).
  assert ((t, r) ∈ sorted) as Hin'
    by (subst sorted; by rewrite sort_index_perm).
  destruct (dropna_row_is_Some (pd.label g (pd.bucket g t))
              (pd.group g (pd.bucket g t) sorted)) as [r' Hr'].
  { intros Hnil.
    assert (r ∈ pd.group g (pd.bucket g t) sorted) as Hr
      by (apply elem_of_group; eauto).
    rewrite Hnil in Hr. by apply elem_of_nil in Hr. }
  apply list_elem_of_fmap. exists (pd.label g (pd.bucket g t), r').
  split; [done |]. apply elem_of_rows_aggregate.
  exists (pd.bucket g t). split; [| exact Hr'].
  eapply elem_of_bins; [apply sort_index_sorted | exact Hin'].
Qed.



(** * Further properties of the code *)

(** ** The constructor and the identity of a series *)

Lemma upper_ascii_idemp c : upper_ascii (upper_ascii c) = upper_ascii c.
Proof. destruct c as [[] [] [] [] [] [] [] []]; reflexivity. Qed.

Lemma upper_idemp s : upper (upper s) = upper s.
Proof.
  induction s as [| c s IH]; [done |]. cbn [upper].
  by rewrite upper_ascii_idemp, IH.
Qed.

(** X1.  [parse_bar_list] returns a series exactly for a list with a
    record, and then the index of its frame holds the time stamps of the
    records, in the order of the list, and [raw] is the list.  For the empty
    list it raises [KeyError] (from [set_index]); it never raises
    [NoBarDataFound]. *)
Theorem X1_parse_bar_list_outcome bar_list source asset :
  (bar_list = [] ->
   Bars.parse_bar_list bar_list source asset = inl (KeyError "timestamp"))
  /\ (bar_list ≠ [] ->
      exists bars,
        Bars.parse_bar_list bar_list source asset = inr bars
        /\ pd.index (Bars.df bars) = Bar.timestamp <$> bar_list
        /\ pd.shape0 (Bars.df bars) = length bar_list
        /\ Bars._raw bars = Some (Bars.RawBarList bar_list))
  /\ (forall message,
        Bars.parse_bar_list bar_list source asset
        ≠ inl (NoBarDataFound message)).
Proof.
  destruct bar_list as [| b l].
  - split; [done |]. split; [done |]. intros message. discriminate.
  - split; [done |]. split; [| intros message; by rewrite parse_bar_list_cons].
    intros _. eexists. rewrite parse_bar_list_cons. split; [reflexivity |].
    unfold pd.index, pd.shape0. cbn [Bars.df Bars._raw pd.rows].
    rewrite <- list_fmap_compose, length_fmap. done.
Qed.

Lemma X1_parse_bar_list_outcome_witness :
  exists bars,
    Bars.parse_bar_list three_bars "alpaca" AAPL = inr bars
    /\ pd.index (Bars.df bars) = [minute_ns; 2 * minute_ns; 3 * minute_ns]%Z.
Proof.
  destruct (proj1 (proj2 (X1_parse_bar_list_outcome three_bars "alpaca" AAPL)))
    as (bars & Hbars & Hindex & _); [discriminate |].
  exists bars. split; [exact Hbars | exact Hindex].
Defined.

(** X2.  Every series that the constructor returns has the source in upper
    case, has as symbol the symbol of its asset in upper case, and keeps the
    frame, the asset and the raw payload it was given.  Upper case is a
    fixed point: building a series again from the source of a series gives
    the same series. *)
Theorem X2_constructor_normalises df source asset raw bars :
  Bars.__init__ df source asset raw = inr bars ->
  Bars.source bars = upper source
  /\ Bars.symbol bars = upper (Asset.symbol (Bars.asset bars))
  /\ upper (Bars.source bars) = Bars.source bars
  /\ upper (Bars.symbol bars) = Bars.symbol bars
  /\ Bars.df bars = df /\ Bars.asset bars = asset /\ Bars._raw bars = raw
  /\ Bars.__init__ df (Bars.source bars) asset raw = inr bars.
Proof.
  intros H. pose proof H as H'.
  apply init_inr in H' as (Hn & Hdf & Hs & Ha & Hsym & Hraw).
  rewrite Hs, Hsym, Ha, !upper_idemp. repeat split; try done.
  rewrite init_nonempty by done. rewrite upper_idemp.
  rewrite init_nonempty in H by done. exact H.
Qed.

Lemma X2_constructor_normalises_witness :
  Bars.__init__ (frame_of three_bars) "alpaca" AAPL None
  = inr (series_of three_bars)
  /\ Bars.source (series_of three_bars) = "ALPACA"
  /\ Bars.symbol (series_of three_bars) = "AAPL".
Proof.
  split; [reflexivity |].
  destruct (X2_constructor_normalises (frame_of three_bars) "alpaca" AAPL None
              (series_of three_bars) eq_refl) as (Hs & Hsym & _).
  split; [exact Hs | exact Hsym].
Defined.

(** X3.  When [aggregate_bars] returns a series for a series that the
    constructor returned, the new series has the source, the asset and the
    symbol of the old one and no raw payload. *)
Theorem X3_aggregate_keeps_identity df source asset raw self frequency new_bars :
  Bars.__init__ df source asset raw = inr self ->
  Bars.aggregate_bars self frequency = inr new_bars ->
  Bars.source new_bars = Bars.source self
  /\ Bars.asset new_bars = Bars.asset self
  /\ Bars.symbol new_bars = Bars.symbol self
  /\ Bars._raw new_bars = None.
Proof.
  intros H Hnew. apply init_inr in H as (Hn & Hdf & Hs & Ha & Hsym & Hraw).
  rewrite aggregate_bars_call in Hnew.
  apply init_inr in Hnew as (_ & _ & Hs' & Ha' & Hsym' & Hraw').
  rewrite Hs', Hsym', Ha', Hs, Hsym, Ha, ?upper_idemp. done.
Qed.

Lemma X3_aggregate_keeps_identity_witness :
  exists new_bars,
    Bars.aggregate_bars (series_of four_bars) four_minutes = inr new_bars
    /\ Bars.source new_bars = "ALPACA"
    /\ Bars.symbol new_bars = "AAPL"
    /\ Bars._raw new_bars = None.
Proof.
  eexists. split; [reflexivity |].
  destruct (X3_aggregate_keeps_identity (frame_of four_bars) "alpaca" AAPL None
              (series_of four_bars) four_minutes _ eq_refl eq_refl)
    as (Hs & _ & Hsym & Hraw).
  split; [exact Hs |]. split; [exact Hsym | exact Hraw].
Defined.

(** ** Windows: volume, inverted bounds, columns in step *)

Lemma get_total_volume_window self start end_ :
  Bars.get_total_volume self start end_
  = pd.sum ((fun r => pd.volume (snd r))
              <$> window start end_ (pd.rows (Bars.df self))).
Proof.
  unfold Bars.get_total_volume, pd.shape0, pd.column. rewrite rows_filter.
  case_decide as Hn; [| done].
  apply length_zero_iff_nil in Hn. by rewrite Hn.
Qed.

Lemma window_inverted (s e : Z) l : (e < s)%Z -> window (Some s) (Some e) l = [].
Proof.
  intros Hes. unfold window. induction l as [| [t r] l IH]; [done |].
  rewrite filter_cons_False; [exact IH |].
  unfold in_window. cbn [fst]. rewrite andb_True, !bool_decide_spec. lia.
Qed.

(** X6.  With the end before the start nothing is raised: [filter] returns
    a frame without rows, [get_total_volume] returns 0 and [get_momentum]
    returns 0. *)
Theorem X6_inverted_bounds self (start end_ : Z) :
  (end_ < start)%Z ->
  pd.rows (Bars.filter self (Some start) (Some end_)) = []
  /\ Bars.get_total_volume self (Some start) (Some end_) = 0%Qc
  /\ Bars.get_momentum self (Some start) (Some end_) = ret (Some 0%Qc).
Proof.
  intros H.
  rewrite rows_filter, get_total_volume_window, get_momentum_window.
  by rewrite (window_inverted _ _ _ H).
Qed.

Lemma X6_inverted_bounds_witness :
  Bars.get_momentum (series_of three_bars) (Some (3 * minute_ns)%Z)
    (Some minute_ns)
  = ret (Some 0%Qc).
Proof.
  apply (X6_inverted_bounds (series_of three_bars) (3 * minute_ns) minute_ns).
  reflexivity.
Defined.

Lemma length_select {A B : Type} (mask : list bool) (l : list A) (k : list B) :
  length l = length k ->
  length (pd.select mask l) = length (pd.select mask k).
Proof.
  revert l k. induction mask as [| b mask IH]; intros l k Hlen; [done |].
  destruct l as [| x l], k as [| y k]; try discriminate Hlen.
  - by destruct b.
  - injection Hlen as Hlen. destruct b; cbn [pd.select length]; auto.
Qed.

Lemma select_zip {A B : Type} (mask : list bool) (l : list A) (k : list B) :
  pd.select mask (zip l k) = zip (pd.select mask l) (pd.select mask k).
Proof.
  revert l k. induction mask as [| b mask IH]; intros l k.
  - by destruct l.
  - destruct l as [| x l], k as [| y k].
    + by destruct b.
    + by destruct b.
    + destruct b; cbn [pd.select zip zip_with]; try done.
      by destruct (pd.select mask l).
    + destruct b; cbn [pd.select zip zip_with]; [by rewrite <- IH | apply IH].
Qed.

Lemma column_aligned_select {A : Type} mask (rows : list (Z * pd.Row))
    (col : option (list A)) :
  column_aligned (length rows) col ->
  column_aligned (length (pd.select mask rows)) (pd.select mask <$> col).
Proof.
  intros Hcol c Hc. destruct col as [c0 |]; [| done].
  injection Hc as <-. symmetry. apply length_select. symmetry. by apply Hcol.
Qed.

Lemma aligned_getitem_mask mask df :
  aligned df -> aligned (pd.getitem_mask mask df).
Proof.
  intros (H1 & H2 & H3 & H4 & H5). unfold aligned, pd.shape0 in *.
  cbn [pd.getitem_mask pd.rows pd.dividend pd.stock_splits pd.price_change
       pd.dividend_yield pd.return_].
  repeat split; by apply column_aligned_select.
Qed.

Lemma mask_step {A : Type} (acc : pd.DataFrame -> option (list A))
    (g : Z -> bool) df c :
  (forall m df, acc (pd.getitem_mask m df) = pd.select m <$> acc df) ->
  acc df = Some c -> length c = pd.shape0 df ->
  let df' := pd.getitem_mask (g <$> pd.index df) df in
  exists c',
    acc df' = Some c' /\ length c' = pd.shape0 df'
    /\ zip (pd.rows df') c'
       = filter (fun x => Is_true (g (fst (fst x)))) (zip (pd.rows df) c).
Proof.
  intros Hacc Hc Hlen df'. exists (pd.select (g <$> pd.index df) c).
  subst df'. rewrite Hacc, Hc. split; [done |]. unfold pd.shape0 in *.
  cbn [pd.getitem_mask pd.rows]. split; [by apply length_select |].
  rewrite <- select_zip. unfold pd.index.
  rewrite <- (fst_zip (pd.rows df) c) at 1 by lia.
  rewrite <- !list_fmap_compose.
  apply (select_fmap (fun x => g (fst (fst x)))).
Qed.

Lemma filter_column_zip {A : Type} (acc : pd.DataFrame -> option (list A))
    self start end_ c :
  (forall m df, acc (pd.getitem_mask m df) = pd.select m <$> acc df) ->
  acc (Bars.df self) = Some c -> length c = pd.shape0 (Bars.df self) ->
  exists c',
    acc (Bars.filter self start end_) = Some c'
    /\ length c' = pd.shape0 (Bars.filter self start end_)
    /\ zip (pd.rows (Bars.filter self start end_)) c'
       = filter (fun x => Is_true (in_window start end_ (fst (fst x))))
           (zip (pd.rows (Bars.df self)) c).
Proof.
  intros Hacc Hc Hlen. unfold Bars.filter, in_window.
  destruct start as [s |], end_ as [e |].
  - destruct (mask_step acc (fun t => bool_decide (s ≤ t)%Z) _ c Hacc Hc Hlen)
      as (c1 & Hc1 & Hlen1 & Hz1).
    destruct (mask_step acc (fun t => bool_decide (t ≤ e)%Z) _ c1 Hacc Hc1 Hlen1)
      as (c2 & Hc2 & Hlen2 & Hz2).
    exists c2. split; [done |]. split; [done |].
    rewrite Hz2, Hz1, list_filter_filter. apply list_filter_iff.
    intros x. rewrite andb_True. tauto.
  - destruct (mask_step acc (fun t => bool_decide (s ≤ t)%Z) _ c Hacc Hc Hlen)
      as (c1 & Hc1 & Hlen1 & Hz1).
    exists c1. split; [done |]. split; [done |]. rewrite Hz1.
    apply list_filter_iff. intros x. rewrite andb_True. cbn. tauto.
  - destruct (mask_step acc (fun t => bool_decide (t ≤ e)%Z) _ c Hacc Hc Hlen)
      as (c1 & Hc1 & Hlen1 & Hz1).
    exists c1. split; [done |]. split; [done |]. rewrite Hz1.
    apply list_filter_iff. intros x. rewrite andb_True. cbn. tauto.
  - exists c. split; [done |]. split; [done |]. symmetry. by apply filter_all.
Qed.

(** X7.  [filter] keeps the columns in step.  When every optional column of
    the frame is as long as its index, the same holds for the frame that
    [filter] returns, which has no more rows; and the dividend and the price
    change that stand beside a row in the result are the ones that stood
    beside it before. *)
Theorem X7_filter_keeps_columns_in_step self start end_ :
  aligned (Bars.df self) ->
  aligned (Bars.filter self start end_)
  /\ pd.shape0 (Bars.filter self start end_) ≤ pd.shape0 (Bars.df self)
  /\ (forall dividend,
        pd.dividend (Bars.df self) = Some dividend ->
        exists dividend',
          pd.dividend (Bars.filter self start end_) = Some dividend'
          /\ zip (pd.rows (Bars.filter self start end_)) dividend'
             = filter (fun x => Is_true (in_window start end_ (fst (fst x))))
                 (zip (pd.rows (Bars.df self)) dividend))
  /\ (forall price_change,
        pd.price_change (Bars.df self) = Some price_change ->
        exists price_change',
          pd.price_change (Bars.filter self start end_) = Some price_change'
          /\ zip (pd.rows (Bars.filter self start end_)) price_change'
             = filter (fun x => Is_true (in_window start end_ (fst (fst x))))
                 (zip (pd.rows (Bars.df self)) price_change)).
Proof.
  intros Hal. split; [| split; [| split]].
  - unfold Bars.filter.
    destruct start, end_; repeat apply aligned_getitem_mask; done.
  - unfold pd.shape0. rewrite rows_filter. apply length_filter.
  - intros c Hc. destruct Hal as (H1 & _).
    destruct (filter_column_zip pd.dividend self start end_ c)
      as (c' & Hc' & _ & Hz); [done | done | by apply H1 | eauto].
  - intros c Hc. destruct Hal as (_ & _ & H3 & _).
    destruct (filter_column_zip pd.price_change self start end_ c)
      as (c' & Hc' & _ & Hz); [done | done | by apply H3 | eauto].
Qed.

Lemma parse_bar_list_aligned bar_list source asset bars :
  Bars.parse_bar_list bar_list source asset = inr bars ->
  aligned (Bars.df bars).
Proof.
  intros H. apply parse_bar_list_inr in H
    as (_ & Hrows & _ & Hd & Hss & Hpc & Hdy & Hr).
  unfold aligned, column_aligned, pd.shape0.
  rewrite Hrows, Hd, Hss, Hpc, Hdy, Hr, length_fmap.
  repeat split; intros c [= <-];
    unfold pd.series_add, pd.series_div;
    rewrite ?length_zip_with, ?length_pct_change, ?length_fmap; lia.
Qed.

Lemma X7_filter_keeps_columns_in_step_witness :
  Bars.parse_bar_list three_bars "alpaca" AAPL = inr parsed_three_bars
  /\ aligned (Bars.df parsed_three_bars)
  /\ aligned (Bars.filter parsed_three_bars (Some (2 * minute_ns)%Z) None)
  /\ pd.shape0 (Bars.filter parsed_three_bars (Some (2 * minute_ns)%Z) None)
     ≤ 3.
Proof.
  assert (aligned (Bars.df parsed_three_bars)) as Hal
    by (repeat split; intros c [= <-]; reflexivity).
  split; [reflexivity |]. split; [exact Hal |].
  destruct (X7_filter_keeps_columns_in_step parsed_three_bars
              (Some (2 * minute_ns)%Z) None Hal) as (Hal' & Hn & _).
  split; [exact Hal' | exact Hn].
Defined.

(** ** The latest values, and [split] *)

Lemma get_last_price_last self r :
  last (pd.rows (Bars.df self)) = Some r ->
  Bars.get_last_price self = ret (pd.close (snd r)).
Proof.
  intros H. unfold Bars.get_last_price, pd.iloc_last, pd.column.
  by rewrite fmap_last, H.
Qed.

Lemma last_split self :
  last (Bars.split self)
  = (fun r : Z * pd.Row =>
       {| Bar.timestamp := Z.quot (fst r) 1000000000;
          Bar.open := pd.open (snd r); Bar.high := pd.high (snd r);
          Bar.low := pd.low (snd r); Bar.close := pd.close (snd r);
          Bar.volume := pd.volume (snd r);
          Bar.dividend :=
            Bars.row_get (pd.dividend (Bars.df self))
              (pred (length (pd.rows (Bars.df self)))) 0%Qc;
          Bar.stock_splits :=
            Bars.row_get (pd.stock_splits (Bars.df self))
              (pred (length (pd.rows (Bars.df self)))) 0%Qc |})
    <$> last (pd.rows (Bars.df self)).
Proof.
  unfold Bars.split. rewrite !last_lookup, length_imap, list_lookup_imap.
  by destruct (pd.rows (Bars.df self) !! _).
Qed.

(** X8.  [get_last_price] returns the close of the last row, which is the
    close of the last record that [split] returns; on a series that the
    constructor returned it never raises.  [get_last_dividend] returns 0
    when the frame has no dividend column. *)
Theorem X8_last_price df source asset raw self :
  Bars.__init__ df source asset raw = inr self ->
  exists r last_bar,
    last (pd.rows df) = Some r
    /\ Bars.get_last_price self = ret (pd.close (snd r))
    /\ last (Bars.split self) = Some last_bar
    /\ Bars.get_last_price self = ret (Bar.close last_bar)
    /\ (pd.dividend df = None -> Bars.get_last_dividend self = ret 0%Qc).
Proof.
  intros H. apply init_inr in H as (Hn & Hdf & _).
  destruct (last (pd.rows df)) as [r |] eqn:Hlast;
    [| apply last_None in Hlast; unfold pd.shape0 in Hn;
       by rewrite Hlast in Hn].
  rewrite <- Hdf in Hlast. eexists r, _. rewrite last_split, Hlast.
  rewrite Hdf in Hlast. split; [done |].
  rewrite <- Hdf in Hlast. rewrite (get_last_price_last _ _ Hlast).
  split; [done |]. split; [reflexivity |]. split; [done |].
  intros Hd. unfold Bars.get_last_dividend. by rewrite Hdf, Hd.
Qed.

Lemma X8_last_price_witness :
  Bars.__init__ (frame_of three_bars) "alpaca" AAPL None
  = inr (series_of three_bars)
  /\ Bars.get_last_price (series_of three_bars) = ret (Qc_of_Z 99).
Proof.
  split; [reflexivity |].
  destruct (X8_last_price (frame_of three_bars) "alpaca" AAPL None
              (series_of three_bars) eq_refl)
    as (r & last_bar & Hr & Hp & _).
  injection Hr as <-. exact Hp.
Defined.

(** X9.  On a series that [parse_bar_list] returns, [get_last_price] and
    [get_last_dividend] return the close and the dividend of the last
    record of the list. *)
Theorem X9_latest_of_bar_list bar_list source asset bars last_bar :
  Bars.parse_bar_list bar_list source asset = inr bars ->
  last bar_list = Some last_bar ->
  Bars.get_last_price bars = ret (Bar.close last_bar)
  /\ Bars.get_last_dividend bars = ret (Bar.dividend last_bar).
Proof.
  intros H Hlast. apply parse_bar_list_inr in H
    as (_ & Hrows & _ & Hd & _). split.
  - rewrite (get_last_price_last bars (pd.row_of_bar last_bar)); [done |].
    by rewrite Hrows, fmap_last, Hlast.
  - unfold Bars.get_last_dividend, pd.iloc_last.
    by rewrite Hd, fmap_last, Hlast.
Qed.

Lemma X9_latest_of_bar_list_witness :
  Bars.get_last_price parsed_three_bars = ret (Qc_of_Z 99)
  /\ Bars.get_last_dividend parsed_three_bars = ret 0%Qc.
Proof.
  apply (X9_latest_of_bar_list three_bars "alpaca" AAPL parsed_three_bars
           (flat_bar (3 * minute_ns) 99 30)); reflexivity.
Defined.

Lemma split_of_columns k df source asset symbol raw :
  pd.rows df = pd.row_of_bar <$> k ->
  pd.dividend df = Some (Bar.dividend <$> k) ->
  pd.stock_splits df = Some (Bar.stock_splits <$> k) ->
  Bars.split {| Bars.df := df; Bars.source := source; Bars.asset := asset;
                Bars.symbol := symbol; Bars._raw := raw |}
  = in_seconds <$> k.
Proof.
  intros Hrows Hd Hs. unfold Bars.split. cbn [Bars.df].
  rewrite Hrows, Hd, Hs. apply list_eq. intros i.
  rewrite list_lookup_imap, !list_lookup_fmap.
  destruct (k !! i) as [bi |] eqn:Hi; [| done].
  cbn. unfold Bars.row_get. rewrite !list_lookup_fmap, Hi. cbn.
  by destruct bi.
Qed.

Lemma split_parse bar_list source asset bars :
  Bars.parse_bar_list bar_list source asset = inr bars ->
  Bars.split bars = in_seconds <$> bar_list.
Proof.
  intros H. apply parse_bar_list_inr in H as (_ & Hrows & _ & Hd & Hs & _).
  destruct bars as [df s a sym raw]. by apply split_of_columns.
Qed.

(** X10.  [split] returns one record per row, in the order of the rows, with
    the five prices of the row and its time stamp cut to whole seconds;
    the dividend and the stock split of a record are 0 when the frame has no
    such column.  Splitting the series that [parse_bar_list] built from a
    list gives the list back, the time stamps cut to whole seconds. *)
Theorem X10_split self :
  length (Bars.split self) = pd.shape0 (Bars.df self)
  /\ (forall i t r,
        pd.rows (Bars.df self) !! i = Some (t, r) ->
        exists b,
          Bars.split self !! i = Some b
          /\ Bar.timestamp b = Z.quot t 1000000000
          /\ pd.row_of_bar b = (Z.quot t 1000000000, r)
          /\ (pd.dividend (Bars.df self) = None -> Bar.dividend b = 0%Qc)
          /\ (pd.stock_splits (Bars.df self) = None ->
              Bar.stock_splits b = 0%Qc)
          /\ (forall dividend d,
                pd.dividend (Bars.df self) = Some dividend ->
                dividend !! i = Some d -> Bar.dividend b = d))
  /\ (forall bar_list source asset,
        Bars.parse_bar_list bar_list source asset = inr self ->
        Bars.split self = in_seconds <$> bar_list).
Proof.
  split; [| split].
  - unfold Bars.split, pd.shape0. apply length_imap.
  - intros i t r Hi. eexists. unfold Bars.split.
    rewrite list_lookup_imap, Hi. split; [reflexivity |].
    cbn. split; [done |]. split; [by destruct r |].
    split; [by intros -> |]. split; [by intros -> |].
    intros dividend d -> Hd. cbn. by rewrite Hd.
  - intros bar_list source asset H. by eapply split_parse.
Qed.

Lemma X10_split_witness :
  Bars.split parsed_three_bars = in_seconds <$> three_bars.
Proof.
  apply (proj2 (proj2 (X10_split parsed_three_bars)) three_bars "alpaca" AAPL).
  reflexivity.
Defined.

(** ** More about [aggregate_bars] *)

Lemma group_cons g k x l :
  pd.group g k (x :: l)
  = if decide (pd.bucket g (fst x) = k) then snd x :: pd.group g k l
    else pd.group g k l.
Proof. unfold pd.group. rewrite filter_cons. by case_decide. Qed.

(** What a row of the aggregated frame is made of. *)
Lemma aggregate_row g df t r :
  (t, r) ∈ pd.rows (pd.dropna (pd.groupby_agg g df)) ->
  exists k first_ last_,
    t = pd.label g k
    /\ (exists t0, (t0, first_) ∈ pd.rows df /\ pd.bucket g t0 = k)
    /\ (exists t1, (t1, last_) ∈ pd.rows df /\ pd.bucket g t1 = k)
    /\ head (pd.group g k (pd.sort_index (pd.rows df))) = Some first_
    /\ last (pd.group g k (pd.sort_index (pd.rows df))) = Some last_
    /\ pd.open r = pd.open first_ /\ pd.close r = pd.close last_
    /\ (forall t' x,
          (t', x) ∈ pd.rows df -> pd.bucket g t' = k ->
          (pd.low r ≤ pd.low x)%Qc /\ (pd.high x ≤ pd.high r)%Qc).
Proof.
  intros (k & Hk & Hrow)%elem_of_rows_aggregate.
  apply dropna_row_Some in Hrow
    as (-> & (first_ & last_ & Hh & Hl & Ho & Hc) & Hmin & Hmax & Hv).
  apply agg_min_spec in Hmin as [_ Hmin]. apply agg_max_spec in Hmax as [_ Hmax].
  assert (forall x,
            x ∈ pd.group g k (pd.sort_index (pd.rows df))
            <-> exists t, (t, x) ∈ pd.rows df /\ pd.bucket g t = k) as Hgroup.
  { intros x. rewrite elem_of_group. by setoid_rewrite sort_index_perm. }
  exists k, first_, last_. split; [done |].
  split; [by apply Hgroup, head_Some_elem_of |].
  split; [by apply Hgroup, last_Some_elem_of |].
  do 4 (split; [done |]).
  intros t' x Hin Hb.
  assert (x ∈ pd.group g k (pd.sort_index (pd.rows df))) as Hx
    by (apply Hgroup; eauto).
  split; [apply Hmin | apply Hmax]; by apply list_elem_of_fmap_2.
Qed.

(** X12.  Aggregation keeps the prices of a row in order: when in every
    row of the series the low is at most the open and the close, and these
    are at most the high, the same holds in every row of the series that
    [aggregate_bars] returns. *)
Theorem X12_aggregate_keeps_price_order self frequency new_bars :
  Bars.aggregate_bars self frequency = inr new_bars ->
  (forall t r, (t, r) ∈ pd.rows (Bars.df self) -> ohlc_ordered r) ->
  forall t r, (t, r) ∈ pd.rows (Bars.df new_bars) -> ohlc_ordered r.
Proof.
  rewrite aggregate_bars_call. intros (_ & -> & _)%init_inr Hord t r Hin.
  apply aggregate_row in Hin
    as (k & first_ & last_ & _ & (t0 & Hin0 & Hb0) & (t1 & Hin1 & Hb1)
        & _ & _ & Ho & Hc & Hlh).
  destruct (Hord _ _ Hin0) as (Hlo0 & Hoh0 & _).
  destruct (Hord _ _ Hin1) as (_ & _ & Hlc1 & Hch1).
  destruct (Hlh _ _ Hin0 Hb0) as [Hl0 Hh0].
  destruct (Hlh _ _ Hin1 Hb1) as [Hl1 Hh1].
  unfold ohlc_ordered. rewrite Ho, Hc.
  split; [exact (Qcle_trans _ _ _ Hl0 Hlo0) |].
  split; [exact (Qcle_trans _ _ _ Hoh0 Hh0) |].
  split; [exact (Qcle_trans _ _ _ Hl1 Hlc1) |].
  exact (Qcle_trans _ _ _ Hch1 Hh1).
Qed.

Lemma X12_aggregate_keeps_price_order_witness :
  exists new_bars,
    Bars.aggregate_bars (series_of four_bars) four_minutes = inr new_bars
    /\ forall t r, (t, r) ∈ pd.rows (Bars.df new_bars) -> ohlc_ordered r.
Proof.
  eexists. split; [reflexivity |].
  apply (X12_aggregate_keeps_price_order (series_of four_bars) four_minutes);
    [reflexivity |].
  intros t r Hin.
  cbn [series_of frame_of four_bars Bars.df pd.rows fmap list_fmap] in Hin.
  unfold pd.row_of_bar in Hin.
  repeat (apply elem_of_cons in Hin as [[= -> ->] | Hin];
          [repeat split; vm_compute; intros Hgt; discriminate Hgt |]).
  by apply elem_of_nil in Hin.
Defined.

(** X13.  A series that [aggregate_bars] returns has at least one row and
    at most as many rows as the series it was made from, and no two rows of
    it have the same time stamp. *)
Theorem X13_aggregate_row_count self frequency new_bars :
  Bars.aggregate_bars self frequency = inr new_bars ->
  1 ≤ pd.shape0 (Bars.df new_bars) ≤ pd.shape0 (Bars.df self)
  /\ NoDup (pd.index (Bars.df new_bars)).
Proof.
  intros Hnew. rewrite aggregate_bars_call in Hnew.
  apply init_inr in Hnew as (Hn & -> & _).
  assert (NoDup (pd.index (pd.dropna (pd.groupby_agg frequency (Bars.df self)))))
    as Hnd.
  { unfold pd.index.
    pose proof (rows_aggregate_sorted frequency (Bars.df self)) as Hs.
    induction Hs as [| x l Hs IH Hx]; constructor; [| done].
    intros Hin. eapply Forall_forall in Hx; [| exact Hin]. lia. }
  split; [| exact Hnd]. split; [lia |].
  unfold pd.shape0.
  rewrite <- (length_fmap fst),
    <- (length_fmap (fun x => pd.label frequency (pd.bucket frequency (fst x)))
          (pd.rows (Bars.df self))).
  apply submseteq_length, NoDup_submseteq; [exact Hnd |].
  intros t ([t' r] & -> & Hin)%list_elem_of_fmap.
  apply aggregate_row in Hin
    as (k & first_ & _ & -> & (t0 & Hin0 & <-) & _).
  apply list_elem_of_fmap. by exists (t0, first_).
Qed.

Lemma X13_aggregate_row_count_witness :
  exists new_bars,
    Bars.aggregate_bars (series_of four_bars) four_minutes = inr new_bars
    /\ 1 ≤ pd.shape0 (Bars.df new_bars) ≤ 4.
Proof.
  eexists. split; [reflexivity |].
  apply (X13_aggregate_row_count (series_of four_bars) four_minutes _ eq_refl).
Defined.

Lemma last_filter_last {A : Type} (P : A -> Prop) `{!forall x, Decision (P x)}
    (l : list A) x :
  last l = Some x -> P x -> last (filter P l) = Some x.
Proof.
  intros (l' & ->)%last_Some HP.
  by rewrite filter_app, filter_cons_True, filter_nil, last_snoc.
Qed.

Lemma head_filter_head {A : Type} (P : A -> Prop) `{!forall x, Decision (P x)}
    (l : list A) x :
  head l = Some x -> P x -> head (filter P l) = Some x.
Proof.
  destruct l as [| y l]; [done |]. intros [= ->] HP.
  by rewrite filter_cons_True.
Qed.

Lemma bins_ends g l r0 r1 :
  StronglySorted by_time l -> head l = Some r0 -> last l = Some r1 ->
  exists middle,
    pd.bins g l = pd.bucket g (fst r0) :: middle
    /\ last (pd.bins g l) = Some (pd.bucket g (fst r1)).
Proof.
  intros Hs Hh Hl. unfold pd.bins. rewrite Hh, Hl.
  assert (pd.bucket g (fst r0) ≤ pd.bucket g (fst r1))%Z as Hle.
  { apply bucket_mono. apply (sorted_head_le l r0 r1 Hs Hh).
    by apply last_Some_elem_of. }
  set (lo := pd.bucket g (fst r0)) in *. set (hi := pd.bucket g (fst r1)) in *.
  eexists. split; [rewrite seqZ_cons by lia; reflexivity |].
  replace (hi - lo + 1)%Z with (Z.of_nat (S (Z.to_nat (hi - lo)))) by lia.
  rewrite seqZ_S, last_snoc. f_equal. lia.
Qed.

(** The first and the last row of the aggregated frame. *)
Lemma aggregate_ends g df r0 r1 :
  head (pd.sort_index (pd.rows df)) = Some r0 ->
  last (pd.sort_index (pd.rows df)) = Some r1 ->
  exists a b,
    head (pd.rows (pd.dropna (pd.groupby_agg g df)))
    = Some (pd.label g (pd.bucket g (fst r0)), a)
    /\ pd.open a = pd.open (snd r0)
    /\ last (pd.rows (pd.dropna (pd.groupby_agg g df)))
       = Some (pd.label g (pd.bucket g (fst r1)), b)
    /\ pd.close b = pd.close (snd r1).
Proof.
  intros Hh Hl. set (sorted := pd.sort_index (pd.rows df)) in *.
  destruct (bins_ends g sorted r0 r1 (sort_index_sorted _) Hh Hl)
    as (middle & Hbins & Hlast).
  assert (head (pd.group g (pd.bucket g (fst r0)) sorted) = Some (snd r0))
    as Hg0.
  { unfold pd.group.
    pose proof (head_filter_head
                  (fun r => pd.bucket g (fst r) = pd.bucket g (fst r0))
                  sorted r0 Hh eq_refl) as Hf.
    destruct (filter _ sorted); [done |]. by injection Hf as ->. }
  assert (last (pd.group g (pd.bucket g (fst r1)) sorted) = Some (snd r1))
    as Hg1.
  { unfold pd.group. rewrite fmap_last.
    by rewrite (last_filter_last _ _ r1 Hl). }
  destruct (dropna_row_is_Some (pd.label g (pd.bucket g (fst r0)))
              (pd.group g (pd.bucket g (fst r0)) sorted)) as [a Ha];
    [by intros Hnil; rewrite Hnil in Hg0 |].
  destruct (dropna_row_is_Some (pd.label g (pd.bucket g (fst r1)))
              (pd.group g (pd.bucket g (fst r1)) sorted)) as [b Hb];
    [by intros Hnil; rewrite Hnil in Hg1 |].
  exists a, b. unfold pd.dropna, pd.groupby_agg. cbn [pd.rows]. fold sorted.
  split; [| split; [| split]].
  - rewrite Hbins. cbn [fmap list_fmap omap list_omap]. by rewrite Ha.
  - apply dropna_row_Some in Ha
      as (_ & (f & l & Hf & _ & Ho & _) & _). rewrite Ho.
    rewrite Hg0 in Hf. by injection Hf as <-.
  - apply last_Some in Hlast as [ks ->].
    rewrite fmap_app, omap_app. cbn [fmap list_fmap omap list_omap].
    rewrite Hb. apply last_snoc.
  - apply dropna_row_Some in Hb
      as (_ & (f & l & _ & Hlb & _ & Hc) & _). rewrite Hc.
    rewrite Hg1 in Hlb. by injection Hlb as <-.
Qed.

(** X14.  Aggregation keeps the ends of a series: the first row of the
    result has the open of the earliest row, and its last row the close of
    the latest row.  So for a series whose index is in time order
    [get_last_price] returns the same price before and after
    [aggregate_bars]. *)
Theorem X14_aggregate_keeps_ends self frequency new_bars :
  Bars.aggregate_bars self frequency = inr new_bars ->
  exists r0 r1 a b,
    head (pd.sort_index (pd.rows (Bars.df self))) = Some r0
    /\ last (pd.sort_index (pd.rows (Bars.df self))) = Some r1
    /\ head (pd.rows (Bars.df new_bars))
       = Some (pd.label frequency (pd.bucket frequency (fst r0)), a)
    /\ pd.open a = pd.open (snd r0)
    /\ last (pd.rows (Bars.df new_bars))
       = Some (pd.label frequency (pd.bucket frequency (fst r1)), b)
    /\ pd.close b = pd.close (snd r1)
    /\ Bars.get_last_price new_bars = ret (pd.close (snd r1))
    /\ (StronglySorted by_time (pd.rows (Bars.df self)) ->
        Bars.get_last_price new_bars = Bars.get_last_price self).
Proof.
  rewrite aggregate_bars_call. intros (Hn & Hdf & _)%init_inr.
  destruct (pd.sort_index (pd.rows (Bars.df self))) as [| x l] eqn:Hsort.
  { exfalso. apply Hn. unfold pd.shape0, pd.dropna, pd.groupby_agg.
    cbn [pd.rows]. by rewrite Hsort. }
  destruct (last (x :: l)) as [r1 |] eqn:Hl; [| by apply last_None in Hl].
  rewrite <- Hsort in Hl.
  destruct (aggregate_ends frequency (Bars.df self) x r1)
    as (a & b & Ha & Hoa & Hb & Hcb); [by rewrite Hsort | done |].
  rewrite Hsort in Hl.
  exists x, r1, a, b. rewrite Hdf. do 6 (split; [done |]).
  assert (Bars.get_last_price new_bars = ret (pd.close (snd r1))) as Hp.
  { rewrite <- Hcb. rewrite <- Hdf in Hb.
    exact (get_last_price_last new_bars _ Hb). }
  split; [exact Hp |]. intros Hs. rewrite Hp. symmetry.
  apply (get_last_price_last self r1).
  rewrite <- Hsort, (sort_index_id _ Hs) in Hl. exact Hl.
Qed.

Lemma X14_aggregate_keeps_ends_witness :
  exists new_bars,
    Bars.aggregate_bars (series_of four_bars) four_minutes = inr new_bars
    /\ Bars.get_last_price new_bars = ret (Qc_of_Z 103).
Proof.
  eexists. split; [reflexivity |].
  destruct (X14_aggregate_keeps_ends (series_of four_bars) four_minutes _
              eq_refl) as (r0 & r1 & a & b & _ & Hl & _ & _ & _ & _ & Hp & _).
  injection Hl as <-. exact Hp.
Defined.

(** *** Aggregating twice *)

Lemma omap_groups_ext g (R R' : list (Z * pd.Row)) (ks : list Z) :
  (forall k, k ∈ ks -> pd.group g k R = pd.group g k R') ->
  omap pd.dropna_row
    ((fun k => (pd.label g k, pd.agg_group (pd.group g k R))) <$> ks)
  = omap pd.dropna_row
      ((fun k => (pd.label g k, pd.agg_group (pd.group g k R'))) <$> ks).
Proof.
  induction ks as [| k ks IH]; intros H; [done |].
  cbn [fmap list_fmap omap list_omap].
  rewrite (H k) by left. rewrite IH; [done |].
  intros k' Hk'. apply H. by right.
Qed.

Lemma omap_groups_nil g (ks : list Z) :
  omap pd.dropna_row
    ((fun k => (pd.label g k, pd.agg_group (pd.group g k []))) <$> ks)
  = [].
Proof. induction ks as [| k ks IH]; [done |]. exact IH. Qed.

Lemma group_nil_lt g k (R : list (Z * pd.Row)) :
  Forall (fun r => k < pd.bucket g (fst r))%Z R -> pd.group g k R = [].
Proof.
  induction 1 as [| r R Hr _ IH]; [done |].
  rewrite group_cons, decide_False by lia. exact IH.
Qed.

Lemma agg_singleton t (x : pd.Row) :
  pd.dropna_row (t, pd.agg_group [x]) = Some (t, x).
Proof.
  destruct x as [o h l c v]. unfold pd.dropna_row, pd.agg_group. cbn.
  do 3 f_equal. apply Qcplus_0_r.
Qed.

(** Rows that each stand alone in their bucket, at the left edge of it, and
    in time order, are what aggregating them gives. *)
Lemma aggregate_fixed g (R : list (Z * pd.Row)) (lo n : Z) :
  StronglySorted Z.lt ((fun r => pd.bucket g (fst r)) <$> R) ->
  (forall r, r ∈ R -> fst r = pd.label g (pd.bucket g (fst r))) ->
  (forall r, r ∈ R -> lo ≤ pd.bucket g (fst r) < lo + n)%Z ->
  omap pd.dropna_row
    ((fun k => (pd.label g k, pd.agg_group (pd.group g k R))) <$> seqZ lo n)
  = R.
Proof.
  revert lo n. induction R as [| r R IH]; intros lo n Hs Hlabel Hrange.
  { apply omap_groups_nil. }
  cbn [fmap list_fmap] in Hs. apply StronglySorted_cons in Hs as [Hr Hs].
  rewrite Forall_fmap in Hr.
  set (kr := pd.bucket g (fst r)) in *.
  assert (lo ≤ kr < lo + n)%Z as Hkr by (apply Hrange; left).
  replace n with ((kr - lo) + (1 + (n - (kr - lo) - 1)))%Z by lia.
  rewrite seqZ_app by lia.
  replace (lo + (kr - lo))%Z with kr by lia.
  rewrite (seqZ_app kr 1) by lia.
  rewrite !fmap_app, !omap_app.
  (* before the bucket of [r]: nothing *)
  rewrite (omap_groups_ext g (r :: R) [] (seqZ lo (kr - lo))), omap_groups_nil.
  2:{ intros k Hk%elem_of_seqZ. apply group_nil_lt. constructor; [fold kr; lia |].
      eapply Forall_impl; [exact Hr |]. intros r' Hr'. cbn in Hr'. lia. }
  (* the bucket of [r]: the row itself *)
  rewrite (seqZ_cons kr 1), seqZ_nil by lia.
  cbn [fmap list_fmap omap list_omap app].
  rewrite group_cons, decide_True by done.
  rewrite (group_nil_lt g kr R) by exact Hr.
  rewrite agg_singleton. cbn [app].
  change (pd.label g kr) with (pd.label g (pd.bucket g (fst r))).
  rewrite <- (Hlabel r) by left. rewrite <- surjective_pairing. f_equal.
  (* after it: the other rows *)
  rewrite (omap_groups_ext g (r :: R) R).
  2:{ intros k Hk%elem_of_seqZ. rewrite group_cons, decide_False; [done |].
      fold kr. lia. }
  apply IH; [exact Hs | |].
  - intros r' Hr'. apply Hlabel. by right.
  - intros r' Hr'. eapply Forall_forall in Hr; [| exact Hr']. cbn in Hr.
    specialize (Hrange r' ltac:(by right)). lia.
Qed.

Lemma bucket_label g k : pd.bucket g (pd.label g k) = k.
Proof. apply bucket_spec. lia. Qed.

Lemma rows_aggregate_label g df r :
  r ∈ pd.rows (pd.dropna (pd.groupby_agg g df)) ->
  fst r = pd.label g (pd.bucket g (fst r)).
Proof.
  destruct r as [t r]. intros (k & _ & H%dropna_row_fst)%elem_of_rows_aggregate.
  cbn [fst] in *. subst t. by rewrite bucket_label.
Qed.

Lemma sorted_keys g (R : list (Z * pd.Row)) :
  (forall r, r ∈ R -> fst r = pd.label g (pd.bucket g (fst r))) ->
  StronglySorted Z.lt (fst <$> R) ->
  StronglySorted Z.lt ((fun r => pd.bucket g (fst r)) <$> R)
  /\ StronglySorted by_time R.
Proof.
  intros Hlabel. induction R as [| r R IH]; [by split; constructor |].
  cbn [fmap list_fmap]. intros [Hr Hs]%StronglySorted_cons.
  destruct IH as [IH1 IH2]; [by intros r' Hr'; apply Hlabel; right | done |].
  rewrite Forall_fmap in Hr. split; constructor; try done.
  - rewrite Forall_fmap. apply Forall_forall. intros r' Hr'.
    eapply Forall_forall in Hr; [| exact Hr']. cbn in *.
    destruct (decide (pd.bucket g (fst r) < pd.bucket g (fst r'))%Z) as [| Hge];
      [done |].
    rewrite (Hlabel r), (Hlabel r') in Hr by (by left || by right).
    unfold pd.label in Hr. nia.
  - eapply Forall_impl; [exact Hr |]. intros r' Hr'. unfold by_time. cbn in Hr'.
    lia.
Qed.

(** The aggregated frame, aggregated again at the same frequency, is the
    aggregated frame. *)
Lemma aggregate_twice g df :
  pd.dropna (pd.groupby_agg g (pd.dropna (pd.groupby_agg g df)))
  = pd.dropna (pd.groupby_agg g df).
Proof.
  set (new_df := pd.dropna (pd.groupby_agg g df)).
  assert (forall r, r ∈ pd.rows new_df ->
            fst r = pd.label g (pd.bucket g (fst r))) as Hlabel
    by (intros r; apply rows_aggregate_label).
  destruct (sorted_keys g (pd.rows new_df) Hlabel
              (rows_aggregate_sorted g df)) as [Hkeys Htime].
  assert (pd.rows (pd.dropna (pd.groupby_agg g new_df)) = pd.rows new_df)
    as Hrows.
  { unfold pd.dropna at 1, pd.groupby_agg at 1. cbn [pd.rows].
    rewrite (sort_index_id _ Htime).
    pose proof (fun t r => elem_of_bins g (pd.rows new_df) t r Htime) as Hin.
    unfold pd.bins in *.
    destruct (head (pd.rows new_df)) as [r0 |] eqn:Hh;
      [| by destruct (pd.rows new_df)].
    destruct (last (pd.rows new_df)) as [r1 |] eqn:Hl;
      [| by apply last_None in Hl; rewrite Hl in Hh].
    apply aggregate_fixed; [done | done |].
    intros [t r] Hr. specialize (Hin t r Hr). by apply elem_of_seqZ in Hin. }
  unfold pd.dropna at 1. unfold pd.dropna at 1 in Hrows. cbn [pd.rows] in Hrows.
  rewrite Hrows. reflexivity.
Qed.

(** X15.  Aggregating is idempotent: the series that [aggregate_bars]
    returns, aggregated again at the same frequency, is returned
    unchanged. *)
Theorem X15_aggregate_idempotent self frequency new_bars :
  Bars.aggregate_bars self frequency = inr new_bars ->
  Bars.aggregate_bars new_bars frequency = inr new_bars.
Proof.
  rewrite !aggregate_bars_call. intros H. pose proof H as H'.
  apply init_inr in H' as (Hn & Hdf & Hs & Ha & Hsym & Hraw).
  rewrite Hdf, aggregate_twice, Hs, Ha.
  rewrite init_nonempty in H |- * by done. rewrite upper_idemp. exact H.
Qed.

Lemma X15_aggregate_idempotent_witness :
  exists new_bars,
    Bars.aggregate_bars (series_of four_bars) four_minutes = inr new_bars
    /\ Bars.aggregate_bars new_bars four_minutes = inr new_bars.
Proof.
  eexists. split; [reflexivity |].
  apply (X15_aggregate_idempotent (series_of four_bars) four_minutes).
  reflexivity.
Defined.

(** ** The ends of a window *)

Lemma momentum_of_ends w r0 r1 :
  head w = Some r0 -> last w = Some r1 ->
  momentum_of w
  = pd.cell_div (Some (pd.close (snd r1) - pd.close (snd r0))%Qc)
                (Some (pd.close (snd r0))).
Proof. intros H0 H1. unfold momentum_of. by rewrite H0, H1. Qed.

Lemma filter_none {A : Type} (P : A -> Prop) `{!forall x, Decision (P x)}
    (l : list A) :
  (forall x, x ∈ l -> ~ P x) -> filter P l = [].
Proof.
  induction l as [| x l IH]; intros Hnone; [done |].
  rewrite filter_cons_False by (apply Hnone; left).
  apply IH. intros y Hy. apply Hnone. by right.
Qed.

(** In a frame whose index increases strictly, a window that starts at the
    time stamp of a row starts with that row, and one that ends at the time
    stamp of a row ends with it. *)
Lemma window_head (l : list (Z * pd.Row)) s e x :
  StronglySorted Z.lt (fst <$> l) -> (s, x) ∈ l -> (s ≤ e)%Z ->
  head (window (Some s) (Some e) l) = Some (s, x).
Proof.
  intros Hs (l1 & l2 & ->)%list_elem_of_split Hse.
  rewrite fmap_app in Hs. apply StronglySorted_app in Hs as (H12 & _ & _).
  unfold window. rewrite filter_app, filter_none.
  - rewrite filter_cons_True; [done |]. unfold in_window. cbn [fst].
    rewrite andb_True, !bool_decide_spec. lia.
  - intros [t y] Hy. unfold in_window. cbn [fst].
    rewrite andb_True, !bool_decide_spec.
    specialize (H12 t s). cbn [fmap list_fmap] in H12.
    intros [Hst _]. assert (t < s)%Z; [| lia].
    apply H12; [| by left]. apply list_elem_of_fmap. by exists (t, y).
Qed.

Lemma window_last (l : list (Z * pd.Row)) s e x :
  StronglySorted Z.lt (fst <$> l) -> (e, x) ∈ l -> (s ≤ e)%Z ->
  last (window (Some s) (Some e) l) = Some (e, x).
Proof.
  intros Hs (l1 & l2 & ->)%list_elem_of_split Hse.
  rewrite fmap_app in Hs. apply StronglySorted_app in Hs as (_ & _ & H2).
  cbn [fmap list_fmap] in H2. apply StronglySorted_cons in H2 as [H2 _].
  unfold window. rewrite filter_app, filter_cons_True.
  - rewrite (filter_none _ l2); [by rewrite last_snoc |].
    intros [t y] Hy. unfold in_window. cbn [fst].
    rewrite andb_True, !bool_decide_spec. intros [_ Hte].
    eapply Forall_forall in H2; [| apply list_elem_of_fmap; by exists (t, y)].
    cbn in H2. lia.
  - unfold in_window. cbn [fst]. rewrite andb_True, !bool_decide_spec. lia.
Qed.

(** ** Momentum at the edges, on binary64 *)



(** ** More about the text of a datetime *)

Lemma length_append (s1 s2 : string) :
  String.length (s1 ++ s2) = String.length s1 + String.length s2.
Proof.
  induction s1 as [| c s1 IH]; [by rewrite append_empty |].
  rewrite append_String. cbn [String.length]. by rewrite IH.
Qed.

Lemma length_pad2 n : String.length (datetime.pad2 n) = 2.
Proof. reflexivity. Qed.

Lemma length_pad4 n : String.length (datetime.pad4 n) = 4.
Proof. unfold datetime.pad4. by rewrite length_append, !length_pad2. Qed.

Lemma length_pad6 n : String.length (datetime.pad6 n) = 6.
Proof.
  unfold datetime.pad6. by rewrite length_append, length_pad4, length_pad2.
Qed.

Lemma length_isoformat_offset tz :
  String.length (datetime.isoformat_offset tz)
  = match tz with Some _ => 6 | None => 0 end.
Proof.
  destruct tz as [o |]; [| done]. unfold datetime.isoformat_offset.
  rewrite !length_append, !length_pad2. by case_bool_decide.
Qed.

Lemma length_isoformat dt :
  String.length (datetime.isoformat dt)
  = 19 + (if bool_decide (datetime.microsecond dt = 0)%Z then 0 else 7)
    + match datetime.tzinfo dt with Some _ => 6 | None => 0 end.
Proof.
  unfold datetime.isoformat.
  rewrite !length_append, length_pad4, !length_pad2, length_isoformat_offset.
  case_bool_decide; rewrite ?length_append, ?length_pad6;
    cbn [String.length]; lia.
Qed.

(** X18.  The text that [format_datetime] returns has 25 characters when
    the microsecond of the datetime is 0 and 32 characters otherwise,
    whatever the datetime and its zone. *)
Theorem X18_format_datetime_length (tz_utcoffset : string -> datetime.t -> Z)
    (dt : datetime.t) :
  String.length (AlpacaData.format_datetime tz_utcoffset dt)
  = if bool_decide (datetime.microsecond dt = 0)%Z then 25 else 32.
Proof.
  unfold AlpacaData.format_datetime, AlpacaData.Timestamp.
  destruct (datetime.tzinfo dt) as [o |] eqn:Htz; rewrite length_isoformat.
  - rewrite Htz. by case_bool_decide.
  - destruct dt. cbn. by case_bool_decide.
Qed.



(** ** The fetcher *)

(** X20.  The constructor of [AlpacaData] caps the number of workers at 200
    and the chunk size at 100 and sets no lower bound: a requested value
    within the cap, also 0 or a negative one, is kept as it is.  Without an
    [ENDPOINT] or a [VERSION] in the configuration the client is built for
    the paper endpoint and version "v2", and always with the key and the
    secret of the configuration. *)
Theorem X20_fetcher_constructor config max_workers chunk_size :
  let self := AlpacaData.__init__ config max_workers chunk_size in
  (AlpacaData.max_workers self ≤ 200)%Z
  /\ (AlpacaData.chunk_size self ≤ 100)%Z
  /\ (forall n, max_workers = Some n -> (n ≤ 200)%Z ->
        AlpacaData.max_workers self = n)
  /\ (forall n, chunk_size = Some n -> (n ≤ 100)%Z ->
        AlpacaData.chunk_size self = n)
  /\ (max_workers = None -> AlpacaData.max_workers self = 20%Z)
  /\ (chunk_size = None -> AlpacaData.chunk_size self = 100%Z)
  /\ AlpacaData.api self
     = {| AlpacaData.rest_key := AlpacaData.API_KEY config;
          AlpacaData.rest_secret := AlpacaData.API_SECRET config;
          AlpacaData.rest_endpoint :=
            default "https://paper-api.alpaca.markets"
              (AlpacaData.ENDPOINT config);
          AlpacaData.rest_version :=
            default "v2" (AlpacaData.VERSION config) |}.
Proof.
  intros self. subst self. unfold AlpacaData.__init__.
  cbn [AlpacaData.max_workers AlpacaData.chunk_size AlpacaData.api].
  split; [lia |]. split; [lia |].
  split; [intros n -> Hn; cbn; lia |]. split; [intros n -> Hn; cbn; lia |].
  split; [by intros -> |]. split; [by intros -> |].
  by destruct (AlpacaData.ENDPOINT config), (AlpacaData.VERSION config).
Qed.

Lemma X20_fetcher_constructor_witness :
  AlpacaData.max_workers
    (AlpacaData.__init__
       {| AlpacaData.API_KEY := "key"; AlpacaData.API_SECRET := "secret";
          AlpacaData.ENDPOINT := None; AlpacaData.VERSION := None |}
       (Some (-5)%Z) None)
  = (-5)%Z.
Proof.
  apply (X20_fetcher_constructor
           {| AlpacaData.API_KEY := "key"; AlpacaData.API_SECRET := "secret";
              AlpacaData.ENDPOINT := None; AlpacaData.VERSION := None |}
           (Some (-5)%Z) None); [reflexivity | lia].
Defined.

(** X21.  The fetcher passes errors on and adds none.  When
    [_parse_source_timestep] raises, [_pull_source_bars] and
    [_pull_source_symbol_bars] raise that error whatever the provider would
    answer; when the provider raises, they raise the error of the provider;
    and when the answer has no frame for the symbol,
    [_pull_source_symbol_bars] raises the error of that lookup.  The
    provider is asked for the list that holds the one symbol. *)
Theorem X21_fetcher_errors (tz_utcoffset : string -> datetime.t -> Z)
    (Response : Type) now datetime_sub
    (get_barset : list string -> string -> AlpacaData.kwargs -> result Response)
    (parse_timestep : string -> bool -> result string)
    (response_df_getitem : Response -> string -> result pd.DataFrame)
    symbols symbol length timestep timeshift :
  (forall e,
     parse_timestep timestep true = inl e ->
     AlpacaData._pull_source_bars tz_utcoffset now datetime_sub get_barset
       parse_timestep symbols length timestep timeshift = inl e
     /\ AlpacaData._pull_source_symbol_bars tz_utcoffset now datetime_sub
          get_barset parse_timestep response_df_getitem symbol length timestep
          timeshift = inl e)
  /\ (forall parsed e,
        parse_timestep timestep true = inr parsed ->
        (forall kw, get_barset [symbol] parsed kw = inl e) ->
        AlpacaData._pull_source_symbol_bars tz_utcoffset now datetime_sub
          get_barset parse_timestep response_df_getitem symbol length timestep
          timeshift = inl e)
  /\ (forall parsed response,
        parse_timestep timestep true = inr parsed ->
        (forall kw, get_barset [symbol] parsed kw = inr response) ->
        AlpacaData._pull_source_symbol_bars tz_utcoffset now datetime_sub
          get_barset parse_timestep response_df_getitem symbol length timestep
          timeshift = response_df_getitem response symbol).
Proof.
  unfold AlpacaData._pull_source_symbol_bars, AlpacaData._pull_source_bars.
  split; [| split].
  - intros e ->. done.
  - intros parsed e -> Hget. cbn [bind]. by rewrite Hget.
  - intros parsed response -> Hget. cbn [bind]. by rewrite Hget.
Qed.

Lemma X21_fetcher_errors_witness :
  AlpacaData._pull_source_symbol_bars (fun _ _ => (-300)%Z)
    {| datetime.year := 2021; datetime.month := 3; datetime.day := 1;
       datetime.hour := 10; datetime.minute := 0; datetime.second := 5;
       datetime.microsecond := 0; datetime.tzinfo := None |}
    (fun dt _ => dt)
    (fun _ _ _ => ret (frame_of three_bars))
    (fun _ _ => raise (KeyError "hour"))
    (fun response _ => ret response)
    "AAPL" 3 "hour" None
  = inl (KeyError "hour").
Proof.
  apply (X21_fetcher_errors (fun _ _ => (-300)%Z) pd.DataFrame
           {| datetime.year := 2021; datetime.month := 3; datetime.day := 1;
              datetime.hour := 10; datetime.minute := 0; datetime.second := 5;
              datetime.microsecond := 0; datetime.tzinfo := None |}
           (fun dt _ => dt)
           (fun _ _ _ => ret (frame_of three_bars))
           (fun _ _ => raise (KeyError "hour"))
           (fun response _ => ret response)
           ["AAPL"] "AAPL" 3 "hour" None).
  reflexivity.
Defined.

(** ** Returns without dividends *)

(** X22.  When no record of the list carries a dividend, the return of a
    row of the series that [parse_bar_list] builds is the price change of
    the row, unless the close of the row is 0: then the return is
    undefined, whatever the price change is. *)
Theorem X22_return_without_dividends bar_list source asset bars :
  Bars.parse_bar_list bar_list source asset = inr bars ->
  (forall b, b ∈ bar_list -> Bar.dividend b = 0%Qc) ->
  exists price_change return_,
    pd.price_change (Bars.df bars) = Some price_change
    /\ pd.return_ (Bars.df bars) = Some return_
    /\ forall i b,
         bar_list !! i = Some b ->
         exists pc,
           price_change !! i = Some pc
           /\ return_ !! i
              = Some (if decide (Bar.close b = 0%Qc) then None else pc).
Proof.
  intros H Hdiv. apply parse_bar_list_inr in H
    as (_ & _ & _ & _ & _ & Hpc & _ & Hr).
  eexists _, _. split; [exact Hpc |]. split; [exact Hr |].
  intros i b Hb.
  assert (is_Some (pd.pct_change 1 (Some <$> (Bar.close <$> bar_list)) !! i))
    as [pc Hpci].
  { apply lookup_lt_is_Some. rewrite length_pct_change, !length_fmap.
    by eapply lookup_lt_Some. }
  exists pc. split; [exact Hpci |].
  unfold pd.series_add, pd.series_div.
  rewrite !lookup_zip_with, !list_lookup_fmap, Hb, Hpci. cbn.
  rewrite (Hdiv b) by (by eapply list_elem_of_lookup_2).
  f_equal. unfold pd.cell_div, pd.cell_add. case_decide; [done |].
  destruct pc as [x |]; [| done]. f_equal. field. done.
Qed.

Lemma X22_return_without_dividends_witness :
  exists price_change return_,
    pd.price_change (Bars.df parsed_three_bars) = Some price_change
    /\ pd.return_ (Bars.df parsed_three_bars) = Some return_
    /\ price_change !! 1 = return_ !! 1.
Proof.
  destruct (X22_return_without_dividends three_bars "alpaca" AAPL
              parsed_three_bars eq_refl)
    as (pc & r & Hpc & Hr & Hrows).
  { intros b Hb. cbn [three_bars] in Hb.
    repeat (apply elem_of_cons in Hb as [-> | Hb]; [reflexivity |]).
    by apply elem_of_nil in Hb. }
  exists pc, r. split; [exact Hpc |]. split; [exact Hr |].
  destruct (Hrows 1 (flat_bar (2 * minute_ns) 101 20) eq_refl)
    as (x & Hx & Hrx).
  rewrite Hx, Hrx. f_equal.
Defined.

(** ** Price change and momentum *)

Lemma sorted_consecutive (l : list Z) i x y :
  StronglySorted Z.lt l -> l !! i = Some x -> l !! S i = Some y -> (x < y)%Z.
Proof.
  intros Hs. revert i. induction Hs as [| a l Hs IH Ha]; intros i; [done |].
  destruct i as [| i]; cbn.
  - intros [= ->] Hy. eapply Forall_forall in Ha; [exact Ha |].
    by eapply list_elem_of_lookup_2.
  - apply IH.
Qed.

(** X23.  In a series that [parse_bar_list] built from records whose time
    stamps increase strictly, the price change of a row is the momentum from
    the row before it to the row itself: [get_momentum] between the time
    stamps of two consecutive records returns the price_change entry of the
    later one. *)
Theorem X23_price_change_is_momentum bar_list source asset bars i b0 b1 :
  Bars.parse_bar_list bar_list source asset = inr bars ->
  StronglySorted Z.lt (Bar.timestamp <$> bar_list) ->
  bar_list !! i = Some b0 -> bar_list !! S i = Some b1 ->
  exists price_change pc,
    pd.price_change (Bars.df bars) = Some price_change
    /\ price_change !! S i = Some pc
    /\ Bars.get_momentum bars (Some (Bar.timestamp b0))
         (Some (Bar.timestamp b1))
       = ret pc.
Proof.
  intros H Hs H0 H1. apply parse_bar_list_inr in H
    as (_ & Hrows & _ & _ & _ & Hpc & _).
  eexists _, _. split; [exact Hpc |].
  assert (StronglySorted Z.lt (fst <$> pd.rows (Bars.df bars))) as Hs'
    by (by rewrite Hrows, <- list_fmap_compose).
  assert (pd.row_of_bar b0 ∈ pd.rows (Bars.df bars)) as Hin0.
  { rewrite Hrows. apply list_elem_of_fmap_2. by eapply list_elem_of_lookup_2. }
  assert (pd.row_of_bar b1 ∈ pd.rows (Bars.df bars)) as Hin1.
  { rewrite Hrows. apply list_elem_of_fmap_2. by eapply list_elem_of_lookup_2. }
  assert (Bar.timestamp b0 < Bar.timestamp b1)%Z as Hlt.
  { apply (sorted_consecutive _ i _ _ Hs);
      by rewrite list_lookup_fmap, ?H0, ?H1. }
  split.
  - rewrite (lookup_pct_change_ge 1 _ (S i) (Bar.close b0) (Bar.close b1));
      [reflexivity | lia | |].
    + replace (S i - 1) with i by lia. by rewrite list_lookup_fmap, H0.
    + by rewrite list_lookup_fmap, H1.
  - rewrite get_momentum_window.
    rewrite (momentum_of_ends _ (pd.row_of_bar b0) (pd.row_of_bar b1)).
    + by rewrite cell_pct.
    + apply window_head; [done | done | lia].
    + apply window_last; [done | done | lia].
Qed.

Lemma X23_price_change_is_momentum_witness :
  exists price_change pc,
    pd.price_change (Bars.df parsed_three_bars) = Some price_change
    /\ price_change !! 1 = Some pc
    /\ Bars.get_momentum parsed_three_bars (Some minute_ns)
         (Some (2 * minute_ns)%Z) = ret pc.
Proof.
  apply (X23_price_change_is_momentum three_bars "alpaca" AAPL
           parsed_three_bars 0 (flat_bar minute_ns 100 10)
           (flat_bar (2 * minute_ns) 101 20));
    try reflexivity.
  repeat constructor; vm_compute; reflexivity.
Defined.
